(** * 8D report assistant: status resolver, adopt transition, audit and
      translation pipelines, Word export

    A shallow embedding of [app.py].  Python values that come back from
    [json.loads] are embedded as [pyval]; Python exceptions are explicit
    ([res]); the Streamlit session, the widgets' messages and the calls
    made to the chat-completion service are explicit state ([world]).

    Python [str] values are embedded as their UTF-8 encoding (Rocq
    [string]s are byte strings).  Equality of two [str] values is equality
    of their encodings, and because the delimiter used by the translation
    pipeline is ASCII, its occurrences in a [str] are exactly its
    occurrences in the encoding. *)

From Stdlib Require Import ZArith String Ascii.
From Stdlib Require Import Floats.SpecFloat.
From stdpp Require Import gmap strings list fin_maps.

#[local] Set Warnings "-register-all".

(** ** Python values, exceptions *)

Module Py.

(** What [json.loads] can return: [None], [bool], [int], [float], [str],
    [list], and [dict] with [str] keys. *)
Inductive pyval :=
| PNone
| PBool (b : bool)
| PInt (n : Z)
| PFloat (f : spec_float)
| PStr (s : string)
| PList (l : list pyval)
| PDict (d : gmap string pyval).

(** The exceptions the modelled code can meet.  [StopException] and
    [RerunException] are what [st.stop()] and [st.rerun()] raise to end the
    script run; they derive from [BaseException], so [except Exception]
    lets them through.  The others derive from [Exception]. *)
Inductive exn :=
| AttributeError
| TypeError
| KeyError
| IndexError
| ValueError
| OverflowError
| ServiceError (msg : string)
| StopException
| RerunException.

Definition is_Exception (e : exn) : bool :=
  match e with StopException | RerunException => false | _ => true end.

Inductive res (A : Type) :=
| Ok (a : A)
| Raise (e : exn).
Arguments Ok {A} a.
Arguments Raise {A} e.

#[export] Instance res_ret : MRet res := fun A a => Ok a.
#[export] Instance res_bind : MBind res := fun A B f m =>
  match m with
  | Ok a => f a
  | Raise e => Raise e
  end.

Definition is_ok {A} (r : res A) : bool :=
  match r with Ok _ => true | Raise _ => false end.

(** [str] is a sequence of code points: a lead byte together with the
    continuation bytes (10xxxxxx) that follow it is one element. *)
Definition is_cont (a : ascii) : bool :=
  let n := nat_of_ascii a in (128 <=? n)%nat && (n <? 192)%nat.

Definition starts_with_cont (s : string) : bool :=
  match s with String c _ => is_cont c | EmptyString => false end.

Fixpoint utf8_chars (s : string) : list string :=
  match s with
  | EmptyString => []
  | String c s' =>
      match utf8_chars s' with
      | ch :: rest =>
          if starts_with_cont s' then String c ch :: rest
          else String c EmptyString :: ch :: rest
      | [] => [String c EmptyString]
      end
  end.

Definition float_is_zero (f : spec_float) : bool :=
  match f with S754_zero _ => true | _ => false end.

(** [bool(v)] *)
Definition truthy (v : pyval) : bool :=
  match v with
  | PNone => false
  | PBool b => b
  | PInt n => negb (n =? 0)%Z
  | PFloat f => negb (float_is_zero f)
  | PStr s => negb (String.eqb s "")
  | PList l => match l with [] => false | _ => true end
  | PDict d => negb (bool_decide (d = ∅))
  end.

(** [v.get(k, default)]: only [dict] has the method. *)
Definition get (v : pyval) (k : string) (dflt : pyval) : res pyval :=
  match v with
  | PDict d => Ok (default dflt (d !! k))
  | _ => Raise AttributeError
  end.

(** [v[k]] with a [str] key. *)
Definition getitem (v : pyval) (k : string) : res pyval :=
  match v with
  | PDict d => match d !! k with Some x => Ok x | None => Raise KeyError end
  | _ => Raise TypeError
  end.

(** [len(v)] *)
Definition len (v : pyval) : res nat :=
  match v with
  | PStr s => Ok (length (utf8_chars s))
  | PList l => Ok (length l)
  | PDict d => Ok (size d)
  | _ => Raise TypeError
  end.

(** [v[i]] with a non-negative [int] index.  A [dict] built by
    [json.loads] has no [int] key. *)
Definition index (v : pyval) (i : nat) : res pyval :=
  match v with
  | PStr s => match utf8_chars s !! i with
              | Some c => Ok (PStr c) | None => Raise IndexError end
  | PList l => match l !! i with
               | Some x => Ok x | None => Raise IndexError end
  | PDict _ => Raise KeyError
  | _ => Raise TypeError
  end.

(** The elements [for item in v] runs through.  A [dict] yields its keys;
    [gmap] lists them in its own order, not in insertion order. *)
Definition iter (v : pyval) : res (list pyval) :=
  match v with
  | PStr s => Ok (PStr <$> utf8_chars s)
  | PList l => Ok l
  | PDict d => Ok (PStr <$> (map_to_list d).*1)
  | _ => Raise TypeError
  end.

Definition is_dict (v : pyval) : bool :=
  match v with PDict _ => true | _ => false end.

End Py.
Export Py.

(** ** Calendar dates

    A [datetime.date] is determined by its proleptic Gregorian ordinal
    (1 for 0001-01-01, [MAXORDINAL] for 9999-12-31); comparison of dates is
    comparison of ordinals and adding a [timedelta] adds its days to the
    ordinal, with [OverflowError] outside the range. *)

Module Date.

Record date := of_ordinal { toordinal : Z }.

Definition MAXORDINAL : Z := 3652059.

Definition is_leap (year : Z) : bool :=
  (year mod 4 =? 0)%Z && (negb (year mod 100 =? 0)%Z || (year mod 400 =? 0)%Z).

Definition days_before_year (year : Z) : Z :=
  let y := (year - 1)%Z in (y * 365 + y / 4 - y / 100 + y / 400)%Z.

Definition DAYS_IN_MONTH : list Z :=
  [31; 28; 31; 30; 31; 30; 31; 31; 30; 31; 30; 31]%Z.

Definition days_in_month (year month : Z) : Z :=
  if (month =? 2)%Z && is_leap year then 29%Z
  else default 0%Z (DAYS_IN_MONTH !! Z.to_nat (month - 1)).

Definition days_before_month (year month : Z) : Z :=
  (foldr Z.add 0 (take (Z.to_nat (month - 1)) DAYS_IN_MONTH)
   + (if (2 <? month) && is_leap year then 1 else 0))%Z.

Definition ymd2ord (year month day : Z) : Z :=
  (days_before_year year + days_before_month year month + day)%Z.

(** [date(year, month, day)] *)
Definition make (year month day : Z) : res date :=
  if ((1 <=? year) && (year <=? 9999) && (1 <=? month) && (month <=? 12)
      && (1 <=? day) && (day <=? days_in_month year month))%Z
  then Ok (of_ordinal (ymd2ord year month day))
  else Raise ValueError.

(** The order Python gives to [date] objects is that of their triples
    (year, month, day). *)
Definition ymd_lt (a b : Z * Z * Z) : Prop :=
  let '(y1, m1, d1) := a in
  let '(y2, m2, d2) := b in
  (y1 < y2 ∨ (y1 = y2 ∧ (m1 < m2 ∨ (m1 = m2 ∧ d1 < d2))))%Z.

Definition ltb (a b : date) : bool := (toordinal a <? toordinal b)%Z.
Definition leb (a b : date) : bool := (toordinal a <=? toordinal b)%Z.

(** [a + timedelta(days=n)] *)
Definition add_days (a : date) (n : Z) : res date :=
  let o := (toordinal a + n)%Z in
  if ((0 <? o) && (o <=? MAXORDINAL))%Z then Ok (of_ordinal o)
  else Raise OverflowError.

(** A reference model of [datetime.strptime(s, '%Y-%m-%d').date()] on
    ASCII input, after CPython's [_strptime]: the format compiles to the
    regular expression
    [(\d\d\d\d)-(1[0-2]|0[1-9]|[1-9])-(3[0-1]|[1-2]\d|0[1-9]|[1-9]| [1-9])],
    the match must consume the whole string, and the three numbers must
    form a date. *)
Definition digit (a : ascii) : option Z :=
  let n := nat_of_ascii a in
  if (48 <=? n)%nat && (n <=? 57)%nat then Some (Z.of_nat (n - 48)) else None.

Definition in_range (lo hi : Z) (a : ascii) : option Z :=
  d ← digit a; if ((lo <=? d) && (d <=? hi))%Z then Some d else None.

Definition dash : ascii := "-"%char.
Definition space : ascii := " "%char.

(** The alternatives of the month group that match a prefix, in the
    order the regular expression tries them, each with what is left. *)
Definition month_alternatives (s : list ascii) : list (Z * list ascii) :=
  match s with
  | a :: b :: r =>
      (if bool_decide (digit a = Some 1%Z) then
         match in_range 0 2 b with Some d => [((10 + d)%Z, r)] | None => [] end
       else [])
      ++ (if bool_decide (digit a = Some 0%Z) then
            match in_range 1 9 b with Some d => [(d, r)] | None => [] end
          else [])
      ++ match in_range 1 9 a with Some d => [(d, b :: r)] | None => [] end
  | [a] => match in_range 1 9 a with Some d => [(d, [])] | None => [] end
  | [] => []
  end.

(** The first alternative of the day group that matches, with what is
    left; the day group is the last of the expression. *)
Definition day_match (s : list ascii) : option (Z * list ascii) :=
  let two :=
    match s with
    | a :: b :: r =>
        match digit a, digit b with
        | Some 3%Z, Some d => if (d <=? 1)%Z then Some ((30 + d)%Z, r) else None
        | Some 1%Z, Some d => Some ((10 + d)%Z, r)
        | Some 2%Z, Some d => Some ((20 + d)%Z, r)
        | Some 0%Z, Some d => if (1 <=? d)%Z then Some (d, r) else None
        | _, _ => None
        end
    | _ => None
    end in
  match two with
  | Some m => Some m
  | None =>
      match s with
      | a :: r =>
          match in_range 1 9 a with
          | Some d => Some (d, r)
          | None =>
              match r with
              | b :: r' =>
                  if bool_decide (a = space) then
                    match in_range 1 9 b with
                    | Some d => Some (d, r') | None => None end
                  else None
              | [] => None
              end
          end
      | [] => None
      end
  end.

Definition followed_by_dash (mr : Z * list ascii) : bool :=
  match mr.2 with c :: _ => bool_decide (c = dash) | [] => false end.

Definition strptime_ymd (s : string) : res date :=
  match list_ascii_of_string s with
  | y1 :: y2 :: y3 :: y4 :: sep :: r =>
      match digit y1, digit y2, digit y3, digit y4 with
      | Some a, Some b, Some c, Some d =>
          if bool_decide (sep = dash) then
            let year := (a * 1000 + b * 100 + c * 10 + d)%Z in
            let after_month :=
              List.filter followed_by_dash (month_alternatives r) in
            match after_month with
            | (month, _ :: r') :: _ =>
                match day_match r' with
                | Some (day, []) => make year month day
                | _ => Raise ValueError
                end
            | _ => Raise ValueError
            end
          else Raise ValueError
      | _, _, _, _ => Raise ValueError
      end
  | _ => Raise ValueError
  end.

End Date.

(** ** Action-item status ([get_action_status]) *)

Module Status.

(** [datetime.strptime(s, '%Y-%m-%d').date()], a library call: the date,
    or the exception it raises. *)
Class Strptime := strptime_date : string → res Date.date.

Definition Completed_label : string := "已完成".
Definition Overdue_label : string := "逾期/待验证".
Definition DueSoon_label : string := "临期".
Definition InProgress_label : string := "进行中".
Definition DateNotSet_label : string := "日期未设置".

Section get_action_status.
Context `{!Strptime}.
(** [date.today()], read inside the function. *)
Variable today : Date.date.

(** The body of the [try]. *)
Definition classify (action_date_str : string) : res (string * string) :=
  action_date ← strptime_date action_date_str;
  if Date.ltb action_date today then mret ("Overdue", Overdue_label)
  else
    limit ← Date.add_days today 7;
    if Date.leb action_date limit then mret ("DueSoon", DueSoon_label)
    else mret ("Open", InProgress_label).

Definition get_action_status (action_date_str current_status : string)
  : string * string :=
  if String.eqb current_status "Completed" then ("Completed", Completed_label)
  else
    match classify action_date_str with
    | Ok r => r
    | Raise _ => ("Open", DateNotSet_label)
    end.
End get_action_status.

End Status.

(** ** Strings: [find], [split] *)

Module Str.

Definition nl : string := String (ascii_of_nat 10) EmptyString.

Fixpoint take (n : nat) (s : string) : string :=
  match n, s with
  | S n', String c s' => String c (take n' s')
  | _, _ => EmptyString
  end.

Fixpoint drop (n : nat) (s : string) : string :=
  match n, s with
  | S n', String _ s' => drop n' s'
  | _, _ => s
  end.

(** [s.find(sep)]: the lowest index at which [sep] occurs. *)
Fixpoint find (sep s : string) : option nat :=
  if String.prefix sep s then Some 0%nat
  else match s with
       | EmptyString => None
       | String _ s' => S <$> find sep s'
       end.

(** [s.split(sep, 1)] for a non-empty [sep]. *)
Definition split1 (sep s : string) : list string :=
  match find sep s with
  | Some p => [take p s; drop (p + String.length sep) s]
  | None => [s]
  end.

(** [s.split(c)] for a one-character [c]. *)
Fixpoint split_char (c : ascii) (s : string) : list string :=
  match s with
  | EmptyString => [EmptyString]
  | String a s' =>
      if bool_decide (a = c) then EmptyString :: split_char c s'
      else match split_char c s' with
           | h :: t => String a h :: t
           | [] => [String a EmptyString]
           end
  end.

(** [sep] occurs in [s] at index [p]. *)
Definition occurs_at (sep s : string) (p : nat) : Prop :=
  ∃ a b, s = a +:+ sep +:+ b ∧ String.length a = p.

Definition contains (sep s : string) : Prop := ∃ p, occurs_at sep s p.

End Str.

(** ** Effects: session state, messages, service calls *)

Module Eff.

(** State passing with exceptions: an exception keeps the state as it was
    mutated up to the raise. *)
Definition StateExn (S A : Type) : Type := S → res A * S.

#[export] Instance StateExn_ret {S} : MRet (StateExn S) := λ A a s, (Ok a, s).
#[export] Instance StateExn_bind {S} : MBind (StateExn S) := λ A B f m s,
  match m s with
  | (Ok a, s') => f a s'
  | (Raise e, s') => (Raise e, s')
  end.

Definition lift {S A} (r : res A) : StateExn S A := λ s, (r, s).
Definition modify {S} (f : S → S) : StateExn S unit := λ s, (Ok tt, f s).
Definition gets {S A} (f : S → A) : StateExn S A := λ s, (Ok (f s), s).

(** [try: body / except Exception as e: handler(e)] *)
Definition try_except {S A} (body : StateExn S A) (handler : exn → StateExn S A)
  : StateExn S A := λ s,
  match body s with
  | (Ok a, s') => (Ok a, s')
  | (Raise e, s') => if is_Exception e then handler e s' else (Raise e, s')
  end.

(** [for x in l: f(x)] *)
Definition for_each {S A} (f : A → StateExn S unit) (l : list A)
  : StateExn S unit :=
  foldr (λ x rest, f x;; rest) (mret tt) l.

(** A chat-completion request, as far as the program varies it: the
    prompt and whether [response_format] asks for a JSON object. *)
Record request := { prompt : string; json_object : bool }.

(** What [client.chat.completions.create(...)] gives: the [content] of the
    first choice ([None] or a [str]), or an exception of the client. *)
Inductive reply :=
| Content (c : option string)
| Failure (msg : string).

(** The language-model service: its answer may depend on the requests
    sent before. *)
Class Service := chat_completions_create : list request → request → reply.

(** Library text functions and the program's f-string templates; no
    property below depends on the text they produce. *)
Class Text := {
  json_loads : string → res pyval;
  exn_str : exn → string;
  extraction_prompt : string → string;
  evaluation_prompt : pyval → string;
  translation_prompt : string → string → string;
  data_markdown_text : pyval → pyval → pyval → pyval → pyval → string;
  format_value : pyval → string;
  str_strip : string → string;
}.

Record audit_result := {
  extracted_data : pyval;
  evaluation_markdown : option string;
  translated_data : option string;
  translated_eval : option string;
}.

(** [st.session_state.audit_result] at process start. *)
Definition audit_result_init : audit_result :=
  {| extracted_data := PNone; evaluation_markdown := None;
     translated_data := None; translated_eval := None |}.

Inductive ui_event :=
| StError (text : string)
| StWarning (text : string)
| StSuccess (text : string).

Record world := {
  api_key : string;
  audit : audit_result;
  sent : list request;
  shown : list ui_event;
}.

Definition M : Type → Type := StateExn world.

Definition with_audit (f : audit_result → audit_result) (w : world) : world :=
  {| api_key := api_key w; audit := f (audit w);
     sent := sent w; shown := shown w |}.

(** The audit result with its two translated fields replaced. *)
Definition with_translations (data eval : option string) (a : audit_result)
  : audit_result :=
  {| extracted_data := extracted_data a;
     evaluation_markdown := evaluation_markdown a;
     translated_data := data; translated_eval := eval |}.

(** The audit result a successful run leaves: the new pair, no
    translation. *)
Definition new_audit (extracted : pyval) (evaluation : option string)
  : audit_result :=
  {| extracted_data := extracted; evaluation_markdown := evaluation;
     translated_data := None; translated_eval := None |}.

(** The world after one more message on the page. *)
Definition add_shown (e : ui_event) (w : world) : world :=
  {| api_key := api_key w; audit := audit w;
     sent := sent w; shown := shown w ++ [e] |}.

(** The world after one more request to the service. *)
Definition add_sent (r : request) (w : world) : world :=
  {| api_key := api_key w; audit := audit w;
     sent := sent w ++ [r]; shown := shown w |}.

(** [st.session_state.audit_result[key] = v], one definition per key. *)
Definition set_extracted_data (v : pyval) : M unit :=
  modify (with_audit (λ a,
    {| extracted_data := v;
       evaluation_markdown := evaluation_markdown a;
       translated_data := translated_data a;
       translated_eval := translated_eval a |})).

Definition set_evaluation_markdown (v : option string) : M unit :=
  modify (with_audit (λ a,
    {| extracted_data := extracted_data a;
       evaluation_markdown := v;
       translated_data := translated_data a;
       translated_eval := translated_eval a |})).

Definition set_translated_data (v : option string) : M unit :=
  modify (with_audit (λ a,
    {| extracted_data := extracted_data a;
       evaluation_markdown := evaluation_markdown a;
       translated_data := v;
       translated_eval := translated_eval a |})).

Definition set_translated_eval (v : option string) : M unit :=
  modify (with_audit (λ a,
    {| extracted_data := extracted_data a;
       evaluation_markdown := evaluation_markdown a;
       translated_data := translated_data a;
       translated_eval := v |})).

(** [st.error], [st.warning], [st.success] *)
Definition show (e : ui_event) : M unit := modify (add_shown e).

(** [st.stop()] *)
Definition st_stop {A} : M A := lift (Raise StopException).

(** One round trip to the service; the request is recorded whether it is
    answered or fails. *)
Definition create `{!Service} (r : request) : M (option string) := λ w,
  match chat_completions_create (sent w) r with
  | Content c => (Ok c, add_sent r w)
  | Failure msg => (Raise (ServiceError msg), add_sent r w)
  end.

(** Truth value of a [str]-or-[None]. *)
Definition truthy_str (o : option string) : bool :=
  match o with Some s => negb (String.eqb s "") | None => false end.

End Eff.
Export Eff.

(** ** Translation ([translate_report]) *)

Module Translate.

Definition NATIVE : string := "中文 (默认)".

Section translate_report.
Context `{!Service, !Text}.

Definition language_name (target_lang : string) : string :=
  if String.eqb target_lang "English (英文)" then "English"
  else if String.eqb target_lang "日本語 (日文)" then "Japanese"
  else target_lang.

Definition translation_request (target_lang text_data : string) : request :=
  {| prompt := translation_prompt (language_name target_lang) text_data;
     json_object := false |}.

(** Building the client object sends nothing; the first request goes
    out with [create]. *)
Definition translate_report (text_data target_lang api_key : string)
  : M (option string * option string) :=
  if String.eqb api_key "" then mret (None, Some "API Key 缺失")
  else
    try_except
      (if String.eqb target_lang "中文 (默认)" then mret (Some text_data, None)
       else
         content ← create (translation_request target_lang text_data);
         mret (content, None))
      (λ e, mret (None, Some ("翻译调用出错: " +:+ exn_str e))).
End translate_report.

End Translate.
Export Translate.

(** ** Audit mode: the audit run, the translation of its result *)

Module Audit.

Definition SEP : string :=
  Str.nl +:+ Str.nl +:+ "***AI_EVAL_SEP***" +:+ Str.nl +:+ Str.nl.

Definition NA : pyval := PStr "N/A".


Definition structure_lost_warning : string :=
  "⚠️ 翻译模型未保留结构化分隔符，结构化数据和评估已合并，请滚动查看下方完整内容。".

Section handlers.
Context `{!Service, !Text}.

(** [json.loads(response.choices[0].message.content)] *)
Definition loads (content : option string) : res pyval :=
  match content with
  | Some s => json_loads s
  | None => Raise TypeError
  end.

Definition extraction_request (report_text : string) : request :=
  {| prompt := extraction_prompt report_text; json_object := true |}.

Definition evaluation_request (extracted : pyval) : request :=
  {| prompt := evaluation_prompt extracted; json_object := false |}.

Definition audit_failed_message (e : exn) : ui_event :=
  StError ("AI 审计失败，请检查 API Key 或输入格式。错误信息: " +:+ exn_str e).

(** The body of [if report_text and st.button("开始 AI 审计"):], the
    button being pressed. *)
Definition audit_run (report_text : option string) : M unit :=
  match report_text with
  | Some text =>
      if String.eqb text "" then mret tt
      else
        key ← gets api_key;
        if String.eqb key "" then
          show (StError "请在侧边栏输入 DeepSeek API Key。");; st_stop
        else
          try_except
            (content ← create (extraction_request text);
             extracted ← lift (loads content);
             evaluation ← create (evaluation_request extracted);
             set_extracted_data extracted;;
             set_evaluation_markdown evaluation;;
             set_translated_data None;;
             set_translated_eval None)
            (λ e, show (audit_failed_message e))
  | None => mret tt
  end.

(** The f-string [data_markdown]; its five lookups in the order they
    are evaluated. *)
Definition data_markdown (extracted : pyval) : res string :=
  d1 ← get extracted "D1_TeamLeader" NA;
  d2 ← get extracted "D2_5W2H" (PDict ∅);
  what ← get d2 "What" NA;
  d4 ← get extracted "D4_RootCause" (PDict ∅);
  occurrence ← get d4 "OccurrenceRootCause" NA;
  d4' ← get extracted "D4_RootCause" (PDict ∅);
  escape ← get d4' "EscapeRootCause" NA;
  d8 ← get extracted "D8_Conclusion" NA;
  mret (data_markdown_text d1 what occurrence escape d8).

(** The [else] branch of [if error:], up to [st.success]: the re-split
    of the translated text and the two assignments. *)
Definition store_translation (translated_content : option string) : M unit :=
  content ← lift (match translated_content with
                  | Some c => Ok c
                  | None => Raise AttributeError
                  end);
  match Str.split1 SEP content with
  | [part0; part1] =>
      set_translated_data (Some part0);;
      set_translated_eval (Some part1)
  | _ =>
      set_translated_data None;;
      set_translated_eval (Some content);;
      show (StWarning structure_lost_warning)
  end.

(** The body of [if extracted_data and evaluation_markdown:] with the
    translate button pressed. *)
Definition translate_button (target_lang_text : string) : M unit :=
  extracted ← gets (λ w, extracted_data (audit w));
  evaluation ← gets (λ w, evaluation_markdown (audit w));
  match evaluation with
  | Some evaluation_text =>
      if truthy extracted && truthy_str evaluation then
        key ← gets api_key;
        if String.eqb key "" then
          show (StError "请在侧边栏输入 DeepSeek API Key。")
        else
          markdown ← lift (data_markdown extracted);
          let full_content_to_translate :=
            markdown +:+ SEP +:+ evaluation_text in
          '(translated_content, error) ←
            translate_report full_content_to_translate target_lang_text key;
          if truthy_str error then
            show (StError ("翻译失败: " +:+ default "" error));;
            set_translated_data None;;
            set_translated_eval None
          else
            store_translation translated_content;;
            show (StSuccess ("翻译完成，目标语言：" +:+ target_lang_text))
      else mret tt
  | None => mret tt
  end.

(** The two service calls and the parse in between all go through,
    giving [extracted] and [evaluation]. *)
Definition audit_succeeds (text : string) (w : world)
    (extracted : pyval) (evaluation : option string) : Prop :=
  ∃ content,
    chat_completions_create (sent w) (extraction_request text) = Content content
    ∧ loads content = Ok extracted
    ∧ chat_completions_create (sent w ++ [extraction_request text])
        (evaluation_request extracted) = Content evaluation.



End handlers.

End Audit.
Export Audit.

(** ** Authoring mode: adopting the suggested 5 Whys (D4 tab) *)

Module D4.

(** [st.session_state.data['d4']]: a dict with the three keys it is
    created with; only their values are ever assigned. *)
Record d4_state := {
  whys : list pyval;
  root_cause : pyval;
  ai_analysis : pyval;
}.

Definition d4_init : d4_state :=
  {| whys := replicate 5 (PStr ""); root_cause := PStr "";
     ai_analysis := PNone |}.

(** [whys[i] = v]: [IndexError] outside the list. *)
Definition set_why (i : nat) (v : pyval) : StateExn d4_state unit := λ s,
  if bool_decide (i < length (whys s)) then
    (Ok tt, {| whys := <[i:=v]> (whys s); root_cause := root_cause s;
               ai_analysis := ai_analysis s |})
  else (Raise IndexError, s).

Definition set_root_cause (v : pyval) : StateExn d4_state unit :=
  modify (λ s, {| whys := whys s; root_cause := v;
                  ai_analysis := ai_analysis s |}).

Definition set_ai_analysis (v : pyval) : StateExn d4_state unit :=
  modify (λ s, {| whys := whys s; root_cause := root_cause s;
                  ai_analysis := v |}).

(** One turn of [for i in range(5)]. *)
Definition adopt_slot (ai_res : pyval) (i : nat) : StateExn d4_state unit :=
  five_whys ← lift (getitem ai_res "five_whys");
  n ← lift (len five_whys);
  if bool_decide (i < n) then
    five_whys' ← lift (getitem ai_res "five_whys");
    why ← lift (index five_whys' i);
    set_why i why
  else mret tt.

(** The body of [if st.button("⚡ 觉得不错，一键填入下方表格"):]; it ends
    in [st.rerun()]. *)
Definition adopt (ai_res : pyval) : StateExn d4_state unit :=
  for_each (adopt_slot ai_res) (seq 0 5);;
  cause ← lift (getitem ai_res "root_cause");
  set_root_cause cause;;
  set_ai_analysis PNone;;
  lift (Raise RerunException).

(** The block [if st.session_state.data['d4'].get('ai_analysis'):] with
    the adopt button pressed: the suggestion is listed first
    ([enumerate(ai_res['five_whys'])]), then adopted.  Without a pending
    suggestion the button is not there. *)
Definition adopt_button : StateExn d4_state unit :=
  ai_res ← gets ai_analysis;
  if truthy ai_res then
    five_whys ← lift (getitem ai_res "five_whys");
    _ ← lift (iter five_whys);
    adopt ai_res
  else mret tt.

End D4.

(** ** Word export ([create_word_document]) *)

Module Word.

(** The calls made on the [python-docx] document. *)
Inductive docx_call :=
| AddHeading (text : pyval) (level : nat)
| AddParagraph (text : pyval) (style : option string)
| AddTable (rows cols : nat) (style : string)
| SetCellText (row col : nat) (text : pyval)
| Save.

(** Whether [python-docx] raises on a call, and what. *)
Class Docx := docx_raises : docx_call → option exn.

(** [s.replace(pat, '')] for a non-empty [pat]: [skip] counts the
    characters of a match still to be dropped. *)
Fixpoint remove_from (pat : string) (skip : nat) (s : string) : string :=
  match s with
  | EmptyString => EmptyString
  | String c s' =>
      match skip with
      | S k => remove_from pat k s'
      | O => if String.prefix pat s
             then remove_from pat (String.length pat - 1) s'
             else String c (remove_from pat 0 s')
      end
  end.

Definition remove_all (pat s : string) : string := remove_from pat 0 s.

Section create_word_document.
Context `{!Docx, !Text}.

Definition call (c : docx_call) : res (list docx_call) :=
  match docx_raises c with
  | Some e => Raise e
  | None => Ok [c]
  end.

(** Two statements in sequence, the calls of the first before those of
    the second. *)
Definition then_ (a b : res (list docx_call)) : res (list docx_call) :=
  x ← a; y ← b; mret (x ++ y).

Definition each {A} (f : A → res (list docx_call)) (l : list A)
  : res (list docx_call) :=
  foldr (λ x rest, then_ (f x) rest) (Ok []) l.

Definition List_Bullet : option string := Some "List Bullet".

(** One line of the translated text. *)
Definition translated_line (line : string) : res (list docx_call) :=
  if String.prefix "## " line then
    call (AddHeading (PStr (str_strip (remove_all "##" line))) 3)
  else if String.prefix "*" line then
    call (AddParagraph (PStr (str_strip (remove_all "*" line))) List_Bullet)
  else if negb (String.eqb (str_strip line) "") then
    call (AddParagraph (PStr line) None)
  else Ok [].

(** One line of the evaluation. *)
Definition evaluation_line (line : string) : res (list docx_call) :=
  if String.prefix "###" line then
    call (AddHeading (PStr (str_strip (remove_all "###" line))) 3)
  else if String.prefix "##" line then
    call (AddHeading (PStr (str_strip (remove_all "##" line))) 2)
  else if String.prefix "*" line then
    call (AddParagraph (PStr (str_strip (remove_all "*" line))) List_Bullet)
  else if negb (String.eqb (str_strip line) "") then
    call (AddParagraph (PStr line) None)
  else Ok [].

(** [for item in actions: document.add_paragraph(item.get("action",
    "N/A"), style='List Bullet')] *)
Definition action_item (item : pyval) : res (list docx_call) :=
  text ← get item "action" (PStr "N/A");
  call (AddParagraph text List_Bullet).

Definition action_items (actions : pyval) : res (list docx_call) :=
  items ← iter actions;
  each action_item items.

Definition core_table (extracted_data : pyval) : res (list docx_call) :=
  then_ (call (AddTable 5 2 "Table Grid"))
 (then_ (call (SetCellText 0 0 (PStr "阶段")))
 (then_ (call (SetCellText 0 1 (PStr "内容")))
    (d1 ← get extracted_data "D1_TeamLeader" (PStr "N/A");
     d2 ← get extracted_data "D2_Problem" (PStr "N/A");
     d4 ← get extracted_data "D4_RootCause" (PStr "N/A");
     d8 ← get extracted_data "D8_Conclusion" (PStr "N/A");
     each (λ row : nat * (string * pyval),
             then_ (call (SetCellText (row.1 + 1) 0 (PStr row.2.1)))
                   (call (SetCellText (row.1 + 1) 1 row.2.2)))
          (imap (λ i r, (i, r))
             [("D1 (组长)", d1); ("D2 (问题描述)", d2);
              ("D4 (根本原因)", d4); ("D8 (结论)", d8)])))).

Definition untranslated_body (extracted_data : pyval)
    (evaluation_markdown : string) : res (list docx_call) :=
  then_ (core_table extracted_data)
 (then_ (call (AddParagraph (PStr (Str.nl +:+ "临时围堵措施 (D3 ICA):")) List_Bullet))
 (then_ (d3 ← get extracted_data "D3_ICA" (PList [PStr "N/A"]);
         action_items d3)
 (then_ (call (AddParagraph (PStr (Str.nl +:+ "永久对策 (D5 PCA):")) List_Bullet))
 (then_ (d5 ← get extracted_data "D5_Actions" (PList [PStr "N/A"]);
         action_items d5)
 (then_ (call (AddParagraph (PStr Str.nl) None))
 (then_ (d6 ← get extracted_data "D6_Verification" (PStr "N/A");
         call (AddParagraph (PStr ("D6 验证结果: " +:+ format_value d6)) None))
 (then_ (d7 ← get extracted_data "D7_Standardization" (PStr "N/A");
         call (AddParagraph (PStr ("D7 标准化: " +:+ format_value d7)) None))
 (then_ (call (AddHeading (PStr "2. AI 审计评价") 2))
        (each evaluation_line
              (Str.split_char (ascii_of_nat 10) evaluation_markdown)))))))))).

Definition translated_body (extracted_data : pyval)
    (evaluation_markdown : string) : res (list docx_call) :=
  text ← match extracted_data with
         | PStr s => Ok (s +:+ Str.nl +:+ Str.nl +:+ evaluation_markdown)
         | _ => Raise TypeError
         end;
  then_ (if String.eqb evaluation_markdown ""
         then call (AddParagraph (PStr "--- 结构化数据与评估合并显示 ---") None)
         else Ok [])
        (each translated_line (Str.split_char (ascii_of_nat 10) text)).

(** [now] is the text of [datetime.now().strftime('%Y-%m-%d %H:%M:%S')]. *)
Definition create_word_document (extracted_data : pyval)
    (evaluation_markdown : string) (is_translated : bool) (now : string)
  : res (list docx_call) :=
  then_ (call (AddHeading (PStr "AI 审计后的 8D 报告") 1))
 (then_ (call (AddParagraph (PStr ("审计日期: " +:+ now)) None))
 (then_ (call (AddHeading (PStr "1. 结构化 8D 报告预览") 2))
 (then_ (if is_translated
         then translated_body extracted_data evaluation_markdown
         else untranslated_body extracted_data evaluation_markdown)
        (call Save)))).
End create_word_document.

(** Both keys are there and [item.get] meets only mappings. *)
Definition all_mappings (v : pyval) : Prop :=
  ∃ items, iter v = Ok items ∧ Forall (λ x, is_dict x = true) items.

Definition actions_are_mappings (d : gmap string pyval) : Prop :=
  ∃ d3 d5, d !! "D3_ICA" = Some d3 ∧ d !! "D5_Actions" = Some d5
           ∧ all_mappings d3 ∧ all_mappings d5.


(** An outcome that, if it is an exception, is one of [P]. *)
Definition raises_only (P : exn → Prop) (r : res (list docx_call)) : Prop :=
  match r with Ok _ => True | Raise e => P e end.


End Word.

(** ** What the audit page shows and exports

    After the handlers, the page picks what to show from the stored
    fields and the selected language, and builds the Word document from
    the same choice. *)

Module Page.

Inductive page :=
| SplitPage (data eval : string)
| MergedPage (content : string)
| OriginalPage.

(** [is_translated_content] and the test [if
    st.session_state.audit_result['translated_data']:] under it. *)
Definition rendered_page (target_lang_text : string) (a : audit_result) : page :=
  if negb (String.eqb target_lang_text "中文 (默认)")
     && bool_decide (is_Some (translated_eval a))
  then
    if truthy_str (translated_data a)
    then SplitPage (default "" (translated_data a))
                   (default "" (translated_eval a))
    else MergedPage (default "" (translated_eval a))
  else OriginalPage.

(** The call of [create_word_document] at the end of the page, inside
    [if extracted_data and evaluation_markdown:]. *)
Definition export_document `{!Word.Docx, !Text} (target_lang_text : string)
    (a : audit_result) (now : string) : option (res (list Word.docx_call)) :=
  if truthy (extracted_data a) && truthy_str (evaluation_markdown a) then
    Some match rendered_page target_lang_text a with
         | SplitPage data eval =>
             Word.create_word_document (PStr data) eval true now
         | MergedPage content =>
             Word.create_word_document (PStr content) "" true now
         | OriginalPage =>
             Word.create_word_document (extracted_data a)
               (default "" (evaluation_markdown a)) false now
         end
  else None.

End Page.

(** ** Sample collaborators

    Instances of the library and service interfaces, for running the
    model on concrete inputs. *)

Module Sample.

(** [json.loads] on a fragment of JSON: [null], [true], [false], integers,
    strings without escapes, arrays and objects; anything else is
    rejected.  A repeated key keeps its last value, as in Python. *)
Module Json.

Definition quote : ascii := ascii_of_nat 34.
Definition backslash : ascii := ascii_of_nat 92.

Definition is_ws (c : ascii) : bool :=
  bool_decide (nat_of_ascii c ∈ [32; 9; 10; 13]%nat).

Fixpoint skip_ws (s : list ascii) : list ascii :=
  match s with
  | c :: r => if is_ws c then skip_ws r else s
  | [] => []
  end.

Fixpoint string_body (s : list ascii) : option (string * list ascii) :=
  match s with
  | [] => None
  | c :: r =>
      if bool_decide (c = quote) then Some (EmptyString, r)
      else if bool_decide (c = backslash) || (nat_of_ascii c <? 32)%nat then None
      else '(t, r') ← string_body r; Some (String c t, r')
  end.

Fixpoint number_body (acc : Z) (s : list ascii) : Z * list ascii :=
  match s with
  | c :: r =>
      match Date.digit c with
      | Some d => number_body (acc * 10 + d)%Z r
      | None => (acc, s)
      end
  | [] => (acc, [])
  end.

Definition ends_number (s : list ascii) : bool :=
  match s with
  | c :: _ => negb (bool_decide (c ∈ [("."%char : ascii); "e"%char; "E"%char]))
  | [] => true
  end.

Definition number (s : list ascii) : option (pyval * list ascii) :=
  match s with
  | c :: r =>
      match Date.digit c with
      | Some d =>
          let '(n, r') := number_body d r in
          if (bool_decide (d = 0%Z) && negb (bool_decide (r' = r)))
             || negb (ends_number r')
          then None else Some (PInt n, r')
      | None => None
      end
  | [] => None
  end.

Definition keyword (k : string) (v : pyval) (s : list ascii)
  : option (pyval * list ascii) :=
  let k' := list_ascii_of_string k in
  if bool_decide (take (length k') s = k') then Some (v, drop (length k') s)
  else None.

(** [value] parses one value; [elements] and [members] parse what
    follows the opening bracket or brace. *)
Fixpoint value (fuel : nat) (s : list ascii) : option (pyval * list ascii) :=
  match fuel with
  | O => None
  | S fuel' =>
      let elements :=
        fix elements (n : nat) (acc : list pyval) (s : list ascii)
          : option (pyval * list ascii) :=
          match n with
          | O => None
          | S n' =>
              '(v, r) ← value fuel' s;
              match skip_ws r with
              | c :: r' =>
                  if bool_decide (c = ","%char) then elements n' (acc ++ [v]) r'
                  else if bool_decide (c = "]"%char) then Some (PList (acc ++ [v]), r')
                  else None
              | [] => None
              end
          end in
      let members :=
        fix members (n : nat) (acc : gmap string pyval) (s : list ascii)
          : option (pyval * list ascii) :=
          match n with
          | O => None
          | S n' =>
              match skip_ws s with
              | q :: r =>
                  if bool_decide (q = quote) then
                    '(k, r1) ← string_body r;
                    match skip_ws r1 with
                    | c :: r2 =>
                        if bool_decide (c = ":"%char) then
                          '(v, r3) ← value fuel' r2;
                          match skip_ws r3 with
                          | c' :: r4 =>
                              if bool_decide (c' = ","%char)
                              then members n' (<[k:=v]> acc) r4
                              else if bool_decide (c' = "}"%char)
                              then Some (PDict (<[k:=v]> acc), r4)
                              else None
                          | [] => None
                          end
                        else None
                    | [] => None
                    end
                  else None
              | [] => None
              end
          end in
      match skip_ws s with
      | c :: r =>
          if bool_decide (c = quote) then
            '(t, r') ← string_body r; Some (PStr t, r')
          else if bool_decide (c = "["%char) then
            match skip_ws r with
            | c' :: r' =>
                if bool_decide (c' = "]"%char) then Some (PList [], r')
                else elements (length r) [] r
            | [] => None
            end
          else if bool_decide (c = "{"%char) then
            match skip_ws r with
            | c' :: r' =>
                if bool_decide (c' = "}"%char) then Some (PDict ∅, r')
                else members (length r) ∅ r
            | [] => None
            end
          else if bool_decide (c = "-"%char) then
            '(v, r') ← number r;
            match v with PInt n => Some (PInt (- n), r') | _ => None end
          else
            match number (c :: r) with
            | Some x => Some x
            | None =>
                match keyword "null" PNone (c :: r) with
                | Some x => Some x
                | None =>
                    match keyword "true" (PBool true) (c :: r) with
                    | Some x => Some x
                    | None => keyword "false" (PBool false) (c :: r)
                    end
                end
            end
      | [] => None
      end
  end.

Definition loads (s : string) : res pyval :=
  let l := list_ascii_of_string s in
  match value (S (length l)) l with
  | Some (v, r) => match skip_ws r with [] => Ok v | _ => Raise ValueError end
  | None => Raise ValueError
  end.

End Json.

Definition q : string := String Json.quote EmptyString.

(** ASCII blanks only. *)
Fixpoint lstrip (s : string) : string :=
  match s with
  | String c r => if Json.is_ws c then lstrip r else s
  | EmptyString => EmptyString
  end.

Definition rev_string (s : string) : string :=
  string_of_list_ascii (rev (list_ascii_of_string s)).

Definition strip (s : string) : string :=
  rev_string (lstrip (rev_string (lstrip s))).

Definition exn_name (e : exn) : string :=
  match e with
  | AttributeError => "AttributeError"
  | TypeError => "TypeError"
  | KeyError => "KeyError"
  | IndexError => "IndexError"
  | ValueError => "ValueError"
  | OverflowError => "OverflowError"
  | ServiceError msg => msg
  | StopException => "StopException"
  | RerunException => "RerunException"
  end.

Definition show_value (v : pyval) : string :=
  match v with
  | PStr s => s
  | PNone => "None"
  | PBool true => "True"
  | PBool false => "False"
  | _ => "..."
  end.

#[export] Instance text : Text := {|
  json_loads := Json.loads;
  exn_str := exn_name;
  extraction_prompt report_text := "报告文本：" +:+ report_text;
  evaluation_prompt extracted := "提取数据：";
  translation_prompt lang text_data := lang +:+ Str.nl +:+ text_data;
  data_markdown_text d1 what occurrence escape d8 :=
    "## D1/D2: " +:+ show_value d1 +:+ " | " +:+ show_value what +:+ Str.nl
    +:+ "## D4: " +:+ show_value occurrence +:+ " | " +:+ show_value escape +:+ Str.nl
    +:+ "## D8: " +:+ show_value d8;
  format_value := show_value;
  str_strip := strip;
|}.

(** A service that answers the n-th request of the session with the n-th
    entry of a script, and fails once the script is used up. *)
Definition scripted (script : list reply) : Service :=
  λ history _, default (Failure "connection error") (script !! length history).

(** A [python-docx] that takes every [str] and, as paragraph text, every
    false value; it raises [TypeError] on anything else. *)
Definition docx : Word.Docx := λ c,
  match c with
  | Word.AddHeading (PStr _) _ | Word.AddParagraph (PStr _) _
  | Word.SetCellText _ _ (PStr _) | Word.AddTable _ _ _ | Word.Save => None
  | Word.AddParagraph v _ | Word.AddHeading v _ =>
      if truthy v then Some TypeError else None
  | Word.SetCellText _ _ _ => Some TypeError
  end.

(** A response that leaves out most of the schema. *)
Definition sparse_response : string :=
  "{" +:+ q +:+ "D1_TeamLeader" +:+ q +:+ ": " +:+ q +:+ "Li Wei" +:+ q +:+ "}".

Definition sparse_report : gmap string pyval :=
  {[ "D1_TeamLeader" := PStr "Li Wei" ]}.

Definition fresh (key : string) : world :=
  {| api_key := key; audit := audit_result_init; sent := []; shown := [] |}.

(** A session that holds an audit and its translation. *)
Definition translated_session : world :=
  {| api_key := "sk-test";
     audit := {| extracted_data := PDict sparse_report;
                 evaluation_markdown := Some "## D2";
                 translated_data := Some "# Report";
                 translated_eval := Some "## D2 (en)" |};
     sent := []; shown := [] |}.

(** A service that answers an audit of the sparse response. *)
Definition audit_script : list reply :=
  [Content (Some sparse_response); Content (Some "## D2")].

(** The text [data_markdown] builds from the sparse report. *)
Definition sparse_markdown : string :=
  Eval vm_compute in
    match @data_markdown text (PDict sparse_report) with
    | Ok s => s
    | Raise _ => ""
    end.

Definition today : Date.date := Date.of_ordinal 739047.

End Sample.

(** ** Joining strings, writing dates *)

Module Join.

(** [sep.join(parts)] *)
Fixpoint join (sep : string) (parts : list string) : string :=
  match parts with
  | [] => EmptyString
  | [x] => x
  | x :: rest => x +:+ sep +:+ join sep rest
  end.

(** [c] is one of the characters of [s]. *)
Fixpoint has_char (c : ascii) (s : string) : bool :=
  match s with
  | EmptyString => false
  | String a s' => bool_decide (a = c) || has_char c s'
  end.

(** [d.strftime('%Y-%m-%d')] for a date given by its fields, the year
    having four digits (1000 to 9999). *)
Definition digit_char (k : Z) : ascii := ascii_of_nat (48 + Z.to_nat k).

Definition two_digits (n : Z) : string :=
  String (digit_char (n / 10)) (String (digit_char (n mod 10)) EmptyString).

Definition four_digits (n : Z) : string :=
  String (digit_char (n / 1000))
    (String (digit_char (n / 100 mod 10))
       (String (digit_char (n / 10 mod 10))
          (String (digit_char (n mod 10)) EmptyString))).

Definition isoformat (year month day : Z) : string :=
  four_digits year +:+ "-" +:+ two_digits month +:+ "-" +:+ two_digits day.

End Join.

(** ** Authoring mode: containment list (D3), permanent actions (D5, D8) *)

Module Actions.

(** The two buttons of the D3 tab.  The clear button is on the page only
    while the list is not empty. *)
Inductive d3_event :=
| AddICA (new_ica : string)
| ClearICA.

Definition d3_step (d3 : list string) (e : d3_event) : list string :=
  match e with
  | AddICA new_ica =>
      if negb (String.eqb new_ica "") then d3 ++ [new_ica] else d3
  | ClearICA =>
      match d3 with [] => d3 | _ => [] end
  end.

Definition d3_run (d3 : list string) (events : list d3_event) : list string :=
  foldl d3_step d3 events.

(** An entry of [st.session_state.data['d5']]: a dict made by the add
    button with exactly these three keys; afterwards only ['status'] is
    assigned. *)
Record pca := { action : string; date : string; status : string }.

(** [if st.button("➕ 添加 PCA") and new_pca:], the button being pressed;
    the picked date is given by its fields. *)
Definition add_pca (new_pca : string) (year month day : Z) (d5 : list pca)
  : list pca :=
  if negb (String.eqb new_pca "") then
    d5 ++ [{| action := new_pca; date := Join.isoformat year month day;
              status := "Open" |}]
  else d5.

(** What the checkbox of one entry does to it. *)
Definition toggle (is_completed : bool) (a : pca) : pca :=
  if is_completed then
    {| action := action a; date := date a; status := "Completed" |}
  else if String.eqb (status a) "Completed" && negb is_completed then
    {| action := action a; date := date a; status := "Open" |}
  else a.

Section d5.
Context `{!Status.Strptime}.
Variable today : Date.date.

(** The loop over the entries in the D5 tab: [checked i] is what the
    checkbox of entry [i] returns in this run.  The result is the new
    list and the status label shown beside each entry. *)
Definition checklist (checked : nat → bool) (d5 : list pca)
  : list pca * list string :=
  let updated_d5 := imap (λ i a, toggle (checked i) a) d5 in
  (updated_d5,
   (λ a, (Status.get_action_status today (date a) (status a)).2) <$> updated_d5).

(** An entry of [permanent_actions_processed] (D8 tab). *)
Record processed := {
  p_action : string;
  p_date : string;
  p_status : string;
  status_class : string;
  status_display : string;
}.

Definition process (a : pca) : processed :=
  let r := Status.get_action_status today (date a) (status a) in
  {| p_action := action a; p_date := date a; p_status := status a;
     status_class := r.1; status_display := r.2 |}.

Definition permanent_actions_processed (d5 : list pca) : list processed :=
  process <$> d5.
End d5.

(** The classes the report template has a style for. *)
Definition styled_classes : list string :=
  ["Completed"; "Overdue"; "DueSoon"; "Open"].

End Actions.

(** ** Authoring mode: the HTML export of the D8 tab *)

Module Html.

(** The report texts of the D8 tab: the rendered template, the Markdown
    sent for translation, and the page wrapped around a translation
    (which formats [None] like any value). *)
Class Templates (R : Type) := {
  html_output : R → string;
  markdown_content : R → string;
  translated_html : option string → string;
}.

Section export.
Context `{!Service, !Text} {R : Type} `{!Templates R}.

End export.

(** [translation_lang.split(' ')[0]] *)
Definition file_name_tag (translation_lang : string) : string :=
  default "" (head (Str.split_char " "%char translation_lang)).

End Html.

(** ** Authoring mode: asking for the 5 Whys (D4 tab) *)

Module Analyse.

(** The f-string prompt built from the D2 fields. *)
Class Prompt := analysis_prompt : string → string → string.

Definition page_state : Type := world * D4.d4_state.

Definition in_world {A} (m : M A) : StateExn page_state A := λ s,
  let '(r, w') := m s.1 in (r, (w', s.2)).

Definition in_d4 {A} (m : StateExn D4.d4_state A) : StateExn page_state A := λ s,
  let '(r, d') := m s.2 in (r, (s.1, d')).

Section analyse.
Context `{!Service, !Text, !Prompt}.

Definition analysis_request (what desc : string) : request :=
  {| prompt := analysis_prompt what desc; json_object := true |}.

(** The body of [if st.button("🤖 呼叫 DeepSeek 帮我分析"):]. *)
Definition analyse_button (what desc : string) : StateExn page_state unit :=
  key ← in_world (gets api_key);
  if String.eqb key "" then
    in_world (show (StError "请在左侧边栏填入你的 DeepSeek API Key"))
  else
    try_except
      (content ← in_world (create (analysis_request what desc));
       result ← lift (loads content);
       in_d4 (D4.set_ai_analysis result))
      (λ e, in_world (show (StError ("AI 调用出错啦: " +:+ exn_str e)))).

(** The block that lists a pending suggestion, its adopt button not
    pressed. *)
Definition suggestion_shown : StateExn D4.d4_state unit :=
  ai_res ← gets D4.ai_analysis;
  if truthy ai_res then
    five_whys ← lift (getitem ai_res "five_whys");
    _ ← lift (iter five_whys);
    mret tt
  else mret tt.

Inductive pressed := NoButton | AnalyseButton | AdoptButton.

(** The D4 tab down to the form: nothing is offered while D2 has no
    [what]; a run has at most one button pressed. *)
Definition d4_tab (what desc : string) (b : pressed) : StateExn page_state unit :=
  if String.eqb what "" then
    in_world (show (StWarning "⚠️ 请先去 D2 步骤填写问题描述！"))
  else
    (match b with
     | AnalyseButton => analyse_button what desc
     | _ => mret tt
     end);;
    match b with
    | AdoptButton => in_d4 D4.adopt_button
    | _ => in_d4 suggestion_shown
    end.
End analyse.

End Analyse.

(** ** Audit mode: the uploaded file *)

Module Ingest.

Record upload := { name : string; data : string }.

(** The libraries behind the upload: [str.lower], whether [pdfminer] was
    imported, [extract_text_to_fp] followed by the decoding of its
    output, and [bytes.decode("utf-8")]. *)
Class Files := {
  str_lower : string → string;
  PDF_SUPPORT : bool;
  pdf_text : string → res string;
  decode_utf8 : string → res string;
}.

Section ingest.
Context `{!Text, !Files}.

(** [uploaded_file.name.split('.')[-1].lower()] *)
Definition file_extension (name : string) : string :=
  str_lower (default "" (last (Str.split_char "."%char name))).

(** [report_text] after the file handling: the pasted text, the text of
    the file, or [None]. *)
Definition report_text (uploaded_file : option upload) (pasted : string)
  : M (option string) :=
  match uploaded_file with
  | None => mret (Some pasted)
  | Some f =>
      if String.eqb (file_extension (name f)) "pdf" then
        if PDF_SUPPORT then
          try_except
            (text ← lift (pdf_text (data f));
             show (StSuccess "PDF 文件文本提取成功！");;
             mret (Some text))
            (λ e, show (StError ("PDF 文本提取失败。错误：" +:+ exn_str e));;
                  mret None)
        else
          show (StWarning "请先安装 `pdfminer.six` 以支持 PDF 解析。");;
          mret None
      else if String.eqb (file_extension (name f)) "txt" then
        try_except
          (text ← lift (decode_utf8 (data f));
           show (StSuccess "TXT 文件读取成功！");;
           mret (Some text))
          (λ e, show (StError ("TXT 文件读取失败: " +:+ exn_str e));;
                mret None)
      else mret (Some pasted)
  end.
End ingest.

(** The file handling followed by the audit button. *)
Definition audit_page `{!Service, !Text, !Files}
    (uploaded_file : option upload) (pasted : string) : M unit :=
  text ← report_text uploaded_file pasted;
  audit_run text.

End Ingest.

(** ** More sample collaborators *)

Module Sample2.

(** A [python-docx] that accepts every call. *)
Definition lenient_docx : Word.Docx := λ _, None.

#[export] Instance prompt : Analyse.Prompt :=
  λ what desc, "问题：" +:+ what +:+ ", 详情：" +:+ desc.

(** ASCII letters only. *)
Definition lower_char (c : ascii) : ascii :=
  let n := nat_of_ascii c in
  if (65 <=? n)%nat && (n <=? 90)%nat then ascii_of_nat (n + 32) else c.

Fixpoint lower (s : string) : string :=
  match s with
  | EmptyString => EmptyString
  | String c s' => String (lower_char c) (lower s')
  end.

(** Files whose bytes are their text; no PDF library. *)
Definition files_without_pdf : Ingest.Files :=
  {| Ingest.str_lower := lower;
     Ingest.PDF_SUPPORT := false;
     Ingest.pdf_text := λ _, Raise ValueError;
     Ingest.decode_utf8 := λ bytes, Ok bytes |}.

(** A report that is its own Markdown. *)
#[export] Instance templates : Html.Templates string :=
  {| Html.html_output report := "<html>" +:+ report +:+ "</html>";
     Html.markdown_content report := report;
     Html.translated_html translated :=
       "<html>" +:+ default "None" translated +:+ "</html>" |}.






End Sample2.

(** ** Predicates used below *)

Module Spec.

(** A step on the D4 state that leaves the number of [whys] slots as it
    was, whatever its outcome. *)
Definition keeps_slots {A} (m : StateExn D4.d4_state A) : Prop :=
  ∀ s, length (D4.whys (m s).2) = length (D4.whys s).

(** An exception raised by [python-docx]. *)
Definition from_docx `{!Word.Docx} (e : exn) : Prop :=
  ∃ c, Word.docx_raises c = Some e.

(** [json.loads] raises nothing but [Exception]s. *)
Definition loads_raises_Exceptions `{!Text} : Prop :=
  ∀ s e, json_loads s = Raise e → is_Exception e = true.

End Spec.

(** * Properties *)

Example utf8_chars_ascii : utf8_chars "N/A" = ["N"; "/"; "A"].
Proof. reflexivity. Qed.

Example utf8_chars_cjk : length (utf8_chars "中文 (默认)") = 7%nat.
Proof. reflexivity. Qed.

Example ordinal_2024_06_10 : Date.make 2024 6 10 = Ok (Date.of_ordinal 739047).
Proof. reflexivity. Qed.

Example ordinal_max : Date.make 9999 12 31 = Ok (Date.of_ordinal Date.MAXORDINAL).
Proof. reflexivity. Qed.

Example json_sparse : Sample.Json.loads Sample.sparse_response = Ok (PDict Sample.sparse_report).
Proof. vm_compute. reflexivity. Qed.

(** ** Dates as ordinals

    The ordinal of a date grows with its (year, month, day) triple, so
    comparing ordinals is comparing dates. *)

Section date_properties.
Import Date.
#[local] Open Scope Z_scope.
Implicit Types (y m d : Z).

Lemma days_before_year_succ y :
  days_before_year (y + 1)
  = days_before_year y + 365 + (if is_leap y then 1 else 0).
Proof.
  unfold days_before_year, is_leap. replace (y + 1 - 1) with y by lia.
  destruct (Z.eqb_spec (y mod 4) 0), (Z.eqb_spec (y mod 100) 0),
    (Z.eqb_spec (y mod 400) 0); simpl; Z.div_mod_to_equations; lia.
Qed.

Lemma days_before_year_mono y1 y2 :
  y1 ≤ y2 → days_before_year y1 ≤ days_before_year y2.
Proof.
  intros Hle. unfold days_before_year. Z.div_mod_to_equations. lia.
Qed.

Ltac month_cases m :=
  let H := fresh in
  assert (H : m = 1 ∨ m = 2 ∨ m = 3 ∨ m = 4 ∨ m = 5 ∨ m = 6 ∨ m = 7
              ∨ m = 8 ∨ m = 9 ∨ m = 10 ∨ m = 11 ∨ m = 12) by lia;
  destruct H as [->|[->|[->|[->|[->|[->|[->|[->|[->|[->|[->| ->]]]]]]]]]]].

Lemma days_before_month_nonneg y m : 1 ≤ m ≤ 12 → 0 ≤ days_before_month y m.
Proof.
  intros Hm. unfold days_before_month.
  destruct (is_leap y); month_cases m; simpl; lia.
Qed.

Lemma day_within_year y m d :
  1 ≤ m ≤ 12 → d ≤ days_in_month y m →
  days_before_month y m + d ≤ 365 + (if is_leap y then 1 else 0).
Proof.
  intros Hm. unfold days_before_month, days_in_month.
  destruct (is_leap y); month_cases m; simpl; lia.
Qed.

Lemma day_before_later_month y m1 m2 d :
  1 ≤ m1 → m1 < m2 → m2 ≤ 12 → d ≤ days_in_month y m1 →
  days_before_month y m1 + d ≤ days_before_month y m2.
Proof.
  intros H1 Hlt H2. unfold days_before_month, days_in_month.
  destruct (is_leap y); month_cases m1; month_cases m2; try lia; simpl; lia.
Qed.

Lemma make_Ok y m d a :
  make y m d = Ok a →
  (1 ≤ y ≤ 9999 ∧ 1 ≤ m ≤ 12 ∧ 1 ≤ d ≤ days_in_month y m)
  ∧ toordinal a = ymd2ord y m d.
Proof.
  unfold make. case_match eqn:Hvalid; [|done]. intros [= <-].
  repeat (apply andb_true_iff in Hvalid as [Hvalid ?]). split; [lia|done].
Qed.

Lemma ymd2ord_lt y1 m1 d1 y2 m2 d2 a b :
  make y1 m1 d1 = Ok a → make y2 m2 d2 = Ok b →
  ymd_lt (y1, m1, d1) (y2, m2, d2) → toordinal a < toordinal b.
Proof.
  intros [(Hy1 & Hm1 & Hd1) ->]%make_Ok [(Hy2 & Hm2 & Hd2) ->]%make_Ok.
  unfold ymd2ord. intros [Hy|[-> [Hm|[-> Hd]]]].
  - pose proof (day_within_year y1 m1 d1 Hm1 (proj2 Hd1)).
    pose proof (days_before_year_succ y1).
    pose proof (days_before_year_mono (y1 + 1) y2 ltac:(lia)).
    pose proof (days_before_month_nonneg y2 m2 Hm2). lia.
  - pose proof (day_before_later_month y2 m1 m2 d1 ltac:(lia) Hm ltac:(lia)
                  (proj2 Hd1)). lia.
  - lia.
Qed.

(** [a < b] on dates built from triples is the order of the triples. *)
Lemma ltb_ymd_lt y1 m1 d1 y2 m2 d2 a b :
  make y1 m1 d1 = Ok a → make y2 m2 d2 = Ok b →
  ltb a b = true ↔ ymd_lt (y1, m1, d1) (y2, m2, d2).
Proof.
  intros Ha Hb. unfold ltb. rewrite Z.ltb_lt. split; [|by eapply ymd2ord_lt].
  intros Hlt.
  destruct (decide (y1 < y2)) as [|Hy]; [by left|].
  destruct (decide (y2 < y1)) as [Hy'|Hy'].
  { pose proof (ymd2ord_lt _ _ _ _ _ _ _ _ Hb Ha (or_introl Hy')). lia. }
  assert (y1 = y2) as -> by lia. right. split; [done|].
  destruct (decide (m1 < m2)) as [|Hm]; [by left|].
  destruct (decide (m2 < m1)) as [Hm'|Hm'].
  { pose proof (ymd2ord_lt _ _ _ _ _ _ _ _ Hb Ha
                  (or_intror (conj eq_refl (or_introl Hm')))). lia. }
  assert (m1 = m2) as -> by lia. right. split; [done|].
  destruct (make_Ok _ _ _ _ Ha) as [_ Hoa], (make_Ok _ _ _ _ Hb) as [_ Hob].
  unfold ymd2ord in *. lia.
Qed.
End date_properties.

(** ** The status resolver *)

Section status_properties.
Import Status.
Context `{!Strptime}.
Implicit Types (today due : Date.date) (d status : string).

Lemma add_days_ordinal today n limit :
  Date.add_days today n = Ok limit →
  Date.toordinal limit = (Date.toordinal today + n)%Z.
Proof.
  unfold Date.add_days. case_match; [|done]. by intros [= <-].
Qed.

Lemma not_Completed status :
  status ≠ "Completed" → String.eqb status "Completed" = false.
Proof. intros Hne. by apply String.eqb_neq. Qed.

(** C4: with the stored status [Completed] the resolver answers
    (Completed, done label) for every due-date string, parseable or
    not, every parser and every current date. *)
Theorem completed_is_terminal today d :
  get_action_status today d "Completed" = ("Completed", Completed_label).
Proof. reflexivity. Qed.

(** C5: for a stored status other than [Completed] the resolver always
    returns a pair (no exception leaves it).  When the string does not
    parse it is (Open, date not set).  When it parses to [due]: before
    today is Overdue; from today up to [limit], the date seven days
    after today, is DueSoon, today included; after [limit] is (Open, in
    progress). *)
Theorem status_of_open_item today d status :
  status ≠ "Completed" →
  match strptime_date d with
  | Raise _ => get_action_status today d status = ("Open", DateNotSet_label)
  | Ok due =>
      ((Date.toordinal due < Date.toordinal today)%Z →
       get_action_status today d status = ("Overdue", Overdue_label))
      ∧ ∀ limit, Date.add_days today 7 = Ok limit →
          Date.toordinal limit = (Date.toordinal today + 7)%Z
          ∧ ((Date.toordinal today ≤ Date.toordinal due ≤ Date.toordinal limit)%Z →
             get_action_status today d status = ("DueSoon", DueSoon_label))
          ∧ ((Date.toordinal limit < Date.toordinal due)%Z →
             get_action_status today d status = ("Open", InProgress_label))
  end.
Proof.
  intros Hne. unfold get_action_status, classify.
  rewrite (not_Completed _ Hne).
  destruct (strptime_date d) as [due|e]; simpl; [|done].
  unfold Date.ltb, Date.leb. split.
  - intros Hlt. by rewrite (proj2 (Z.ltb_lt _ _) Hlt).
  - intros limit Hlimit. rewrite Hlimit. simpl.
    split; [by apply add_days_ordinal|]. split.
    + intros [Hlo Hhi].
      rewrite (proj2 (Z.ltb_ge _ _) Hlo), (proj2 (Z.leb_le _ _) Hhi). done.
    + intros Hgt. pose proof (add_days_ordinal _ _ _ Hlimit).
      rewrite (proj2 (Z.ltb_ge _ _)) by lia.
      rewrite (proj2 (Z.leb_gt _ _) Hgt). done.
Qed.

(** In the last week of year 9999 the deadline [today + 7 days] is not a
    date: an item that is not overdue then falls to the [except]. *)
Lemma status_when_deadline_overflows today d status due :
  status ≠ "Completed" →
  strptime_date d = Ok due →
  (Date.toordinal today ≤ Date.toordinal due)%Z →
  (Date.MAXORDINAL < Date.toordinal today + 7)%Z →
  get_action_status today d status = ("Open", DateNotSet_label).
Proof.
  intros Hne Hd Hle Hmax. unfold get_action_status, classify.
  rewrite (not_Completed _ Hne), Hd. simpl.
  unfold Date.ltb, Date.add_days.
  rewrite (proj2 (Z.ltb_ge _ _) Hle).
  rewrite (proj2 (Z.leb_gt _ _) Hmax), andb_false_r. done.
Qed.
End status_properties.

Lemma status_of_open_item_witness :
  "Open" ≠ "Completed"
  ∧ @Status.get_action_status Date.strptime_ymd Sample.today "2024-06-10" "Open"
    = ("DueSoon", Status.DueSoon_label).
Proof.
  assert (Hne : "Open" ≠ "Completed") by discriminate.
  split; [exact Hne|].
  pose proof (@status_of_open_item Date.strptime_ymd Sample.today
                "2024-06-10" "Open" Hne) as H.
  change (Status.strptime_date "2024-06-10") with (Date.strptime_ymd "2024-06-10") in H.
  vm_compute Date.strptime_ymd in H.
  destruct H as [_ H].
  destruct (H (Date.of_ordinal 739054) eq_refl) as (_ & Hsoon & _).
  apply Hsoon. simpl. lia.
Defined.

(** The dated examples, with today fixed to 2024-06-10. *)
Example status_2024_06_01 :
  @Status.get_action_status Date.strptime_ymd Sample.today "2024-06-01" "Open"
  = ("Overdue", Status.Overdue_label).
Proof. reflexivity. Qed.

Example status_2024_06_15 :
  @Status.get_action_status Date.strptime_ymd Sample.today "2024-06-15" "Open"
  = ("DueSoon", Status.DueSoon_label).
Proof. reflexivity. Qed.

Example status_2024_06_17 :
  @Status.get_action_status Date.strptime_ymd Sample.today "2024-06-17" "Open"
  = ("DueSoon", Status.DueSoon_label).
Proof. reflexivity. Qed.

Example status_2024_06_18 :
  @Status.get_action_status Date.strptime_ymd Sample.today "2024-06-18" "Open"
  = ("Open", Status.InProgress_label).
Proof. reflexivity. Qed.

Example status_2024_06_20 :
  @Status.get_action_status Date.strptime_ymd Sample.today "2024-06-20" "Open"
  = ("Open", Status.InProgress_label).
Proof. reflexivity. Qed.

(** [strptime] takes a month or a day of one digit, and refuses a day
    the month does not have. *)
Example status_one_digit_month :
  @Status.get_action_status Date.strptime_ymd Sample.today "2024-6-9" "Open"
  = ("Overdue", Status.Overdue_label).
Proof. reflexivity. Qed.

Example status_no_such_day :
  @Status.get_action_status Date.strptime_ymd Sample.today "2024-06-31" "Open"
  = ("Open", Status.DateNotSet_label).
Proof. reflexivity. Qed.

Example status_unparseable :
  @Status.get_action_status Date.strptime_ymd Sample.today "next week" "Open"
  = ("Open", Status.DateNotSet_label).
Proof. reflexivity. Qed.

Example status_completed_unparseable :
  @Status.get_action_status Date.strptime_ymd Sample.today "next week" "Completed"
  = ("Completed", Status.Completed_label).
Proof. reflexivity. Qed.

(** ** Strings *)

#[local] Arguments String.append : simpl nomatch.

Section str_properties.
Import Str.
Implicit Types (s a b c sep : string) (p q : nat).

Lemma str_app_assoc a b c : (a +:+ b) +:+ c = a +:+ (b +:+ c).
Proof. induction a as [|x a IH]; simpl; [done|]. by rewrite IH. Qed.

Lemma str_app_length a b :
  String.length (a +:+ b) = (String.length a + String.length b)%nat.
Proof. induction a as [|x a IH]; simpl; [done|]. by rewrite IH. Qed.

Lemma prefix_app sep r : String.prefix sep (sep +:+ r) = true.
Proof.
  induction sep as [|x sep IH]; simpl; [by destruct r|].
  destruct (ascii_dec x x); [done|congruence].
Qed.

Lemma prefix_inv sep s : String.prefix sep s = true → ∃ r, s = sep +:+ r.
Proof.
  revert s. induction sep as [|x sep IH]; intros s; simpl.
  - intros _. by exists s.
  - destruct s as [|y s]; simpl; [done|].
    destruct (ascii_dec x y) as [->|]; [|done].
    intros [r ->]%IH. by exists r.
Qed.

Lemma take_app a b : take (String.length a) (a +:+ b) = a.
Proof. induction a as [|x a IH]; simpl; [by destruct b|]. by rewrite IH. Qed.

Lemma drop_app a b : drop (String.length a) (a +:+ b) = b.
Proof. induction a as [|x a IH]; simpl; [by destruct b|]. done. Qed.

Lemma drop_app_plus a b n : drop (String.length a + n) (a +:+ b) = drop n b.
Proof. induction a as [|x a IH]; simpl; done. Qed.

Lemma occurs_at_0 sep s : occurs_at sep s 0 ↔ String.prefix sep s = true.
Proof.
  split.
  - intros (a & b & -> & Ha). destruct a; [|done]. simpl. apply prefix_app.
  - intros [r ->]%prefix_inv. by exists EmptyString, r.
Qed.

Lemma occurs_at_S sep x s q :
  occurs_at sep (String x s) (S q) ↔ occurs_at sep s q.
Proof.
  split.
  - intros (a & b & Heq & Ha). destruct a as [|y a]; [done|].
    simpl in *. injection Heq as -> ->. injection Ha as Ha.
    by exists a, b.
  - intros (a & b & -> & Ha). exists (String x a), b. simpl. by rewrite Ha.
Qed.

Lemma occurs_at_app sep a s q :
  occurs_at sep s q → occurs_at sep (a +:+ s) (String.length a + q).
Proof.
  intros (x & y & -> & Hx). exists (a +:+ x), y.
  by rewrite str_app_assoc, str_app_length, Hx.
Qed.

Lemma find_unfold sep s :
  find sep s =
  if String.prefix sep s then Some 0
  else match s with
       | EmptyString => None
       | String _ s' => S <$> find sep s'
       end.
Proof. by destruct s. Qed.

(** [find] returns the first occurrence. *)
Lemma find_Some sep s p :
  find sep s = Some p →
  s = take p s +:+ sep +:+ drop (p + String.length sep) s
  ∧ String.length (take p s) = p
  ∧ ∀ q, occurs_at sep s q → p ≤ q.
Proof.
  revert p. induction s as [|x s IH]; intros p; rewrite find_unfold;
    destruct (String.prefix sep _) eqn:Hp.
  - intros [= <-]. apply prefix_inv in Hp as [r Hr].
    destruct sep; [|done]. simpl. split; [done|]. split; [done|]. lia.
  - done.
  - intros [= <-]. apply prefix_inv in Hp as [r Hr].
    simpl. rewrite Hr at 2. rewrite drop_app.
    split; [done|]. split; [done|]. lia.
  - destruct (find sep s) as [p'|] eqn:Hf; [|done].
    intros [= <-]. destruct (IH p' eq_refl) as (Heq & Hlen & Hmin).
    simpl. split; [by rewrite <-Heq|]. split; [by rewrite Hlen|].
    intros [|q] Hq.
    + apply occurs_at_0 in Hq. congruence.
    + apply occurs_at_S, Hmin in Hq. lia.
Qed.

Lemma find_None sep s : find sep s = None → ¬ contains sep s.
Proof.
  induction s as [|x s IH]; rewrite find_unfold;
    destruct (String.prefix sep _) eqn:Hp; try done.
  - intros _ [[|q] Hq]; [apply occurs_at_0 in Hq; congruence|].
    destruct Hq as (a & b & Heq & Ha). by destruct a.
  - destruct (find sep s) eqn:Hf; [done|].
    intros _ [[|q] Hq]; [apply occurs_at_0 in Hq; congruence|].
    apply occurs_at_S in Hq. apply IH; [done|]. by exists q.
Qed.

Lemma find_is_Some sep s q : occurs_at sep s q → is_Some (find sep s).
Proof.
  intros Hq. destruct (find sep s) eqn:Hf; [done|].
  exfalso. eapply find_None; [done|]. by exists q.
Qed.

Lemma occurs_at_drop sep s n q :
  occurs_at sep s q → n ≤ q → occurs_at sep (drop n s) (q - n).
Proof.
  revert s q. induction n as [|n IH]; intros s q Hq Hle.
  - replace (q - 0) with q by lia. by destruct s.
  - destruct q as [|q]; [lia|]. destruct s as [|x s].
    + destruct Hq as (a & b & Heq & Ha). by destruct a.
    + simpl. apply IH; [by apply occurs_at_S in Hq|lia].
Qed.

(** A way to check on a given text that the separator occurs once. *)
Lemma occurs_once sep s p :
  find sep s = Some p → find sep (drop (S p) s) = None →
  ∀ q, occurs_at sep s q ↔ q = p.
Proof.
  intros Hf Hnone q. destruct (find_Some _ _ _ Hf) as (Heq & Hlen & Hmin).
  split.
  - intros Hq. specialize (Hmin _ Hq).
    destruct (decide (q = p)) as [|Hne]; [done|].
    exfalso. apply (find_None _ _ Hnone). exists (q - S p).
    apply occurs_at_drop; [done|lia].
  - intros ->. eexists _, _. by split.
Qed.

Lemma split1_found sep s p :
  find sep s = Some p →
  split1 sep s = [take p s; drop (p + String.length sep) s].
Proof. unfold split1. by intros ->. Qed.

Lemma split1_not_found sep s : find sep s = None → split1 sep s = [s].
Proof. unfold split1. by intros ->. Qed.
End str_properties.

(** ** The re-split of a translated text *)

Ltac unfold_eff :=
  unfold set_extracted_data, set_evaluation_markdown,
    set_translated_data, set_translated_eval, show, st_stop, create,
    try_except, lift, modify, gets,
    mbind, mret, StateExn_bind, StateExn_ret, res_bind, res_ret in *.

Section resplit.
Import Str.
Implicit Types (text : string) (w : world).

Lemma SEP_length : String.length SEP = 21.
Proof. reflexivity. Qed.


Lemma store_translation_found text p w :
  find SEP text = Some p →
  store_translation (Some text) w
  = (Ok tt, with_audit (with_translations
                          (Some (take p text))
                          (Some (drop (p + String.length SEP) text))) w).
Proof.
  intros Hf. unfold store_translation. unfold_eff.
  by rewrite (split1_found _ _ _ Hf).
Qed.

Lemma store_translation_not_found text w :
  find SEP text = None →
  store_translation (Some text) w
  = (Ok tt, add_shown (StWarning structure_lost_warning)
              (with_audit (with_translations None (Some text)) w)).
Proof.
  intros Hf. unfold store_translation. unfold_eff.
  by rewrite (split1_not_found _ _ Hf).
Qed.

Lemma rendered_split target a data eval :
  target ≠ NATIVE → data ≠ "" →
  Page.rendered_page target (with_translations (Some data) (Some eval) a)
  = Page.SplitPage data eval.
Proof.
  intros Htarget Hdata. unfold Page.rendered_page, NATIVE in *. simpl.
  rewrite (proj2 (String.eqb_neq target _) Htarget).
  by rewrite (proj2 (String.eqb_neq data _) Hdata).
Qed.

Lemma rendered_merged target a content :
  target ≠ NATIVE →
  Page.rendered_page target (with_translations None (Some content) a)
  = Page.MergedPage content.
Proof.
  intros Htarget. unfold Page.rendered_page, NATIVE in *. simpl.
  by rewrite (proj2 (String.eqb_neq target _) Htarget).
Qed.

(** C8: a translated text with exactly one occurrence of the delimiter
    is stored as the two parts around it, neither part contains the
    delimiter, nothing is shown, and (the first part not being empty) the
    page shows the two parts separately; a text without the delimiter is
    stored whole in [translated_eval] with [translated_data] absent and
    the structure-lost warning shown, the step ending normally and the
    page showing the text as one merged section. *)
Theorem resplit_one_or_none text w :
  (∀ p, (∀ q, occurs_at SEP text q ↔ q = p) →
     ∃ a b, text = a +:+ SEP +:+ b ∧ String.length a = p
       ∧ ¬ contains SEP a ∧ ¬ contains SEP b
       ∧ store_translation (Some text) w
         = (Ok tt, with_audit (with_translations (Some a) (Some b)) w)
       ∧ (∀ target, target ≠ NATIVE → a ≠ "" →
            Page.rendered_page target
              (audit (store_translation (Some text) w).2)
            = Page.SplitPage a b))
  ∧ (¬ contains SEP text →
     store_translation (Some text) w
     = (Ok tt, add_shown (StWarning structure_lost_warning)
                 (with_audit (with_translations None (Some text)) w))
     ∧ (∀ target, target ≠ NATIVE →
          Page.rendered_page target
            (audit (store_translation (Some text) w).2)
          = Page.MergedPage text)).
Proof.
  split.
  - intros p Huniq.
    assert (Hp : occurs_at SEP text p) by by apply Huniq.
    destruct (find_is_Some _ _ _ Hp) as [p0 Hf].
    destruct (find_Some _ _ _ Hf) as (Heq & Hlen & Hmin).
    assert (p0 = p) as ->.
    { apply Huniq. eexists _, _. split; [exact Heq|exact Hlen]. }
    pose proof (store_translation_found text p w Hf) as Hstore.
    exists (take p text), (drop (p + String.length SEP) text).
    split; [done|]. split; [done|]. split; [|split; [|split]].
    + intros [q (x & y & Hxy & Hx)].
      assert (occurs_at SEP text q) as Hq.
      { exists x, (y +:+ SEP +:+ drop (p + String.length SEP) text).
        split; [|done]. rewrite Heq at 1. rewrite Hxy.
        by rewrite !str_app_assoc. }
      apply Huniq in Hq.
      apply (f_equal String.length) in Hxy.
      rewrite Hlen, !str_app_length, SEP_length in Hxy. lia.
    + intros [q (x & y & Hxy & Hx)].
      assert (occurs_at SEP text (p + String.length SEP + q)) as Hq.
      { exists (take p text +:+ SEP +:+ x), y.
        split.
        - rewrite Heq at 1. rewrite Hxy. by rewrite !str_app_assoc.
        - rewrite !str_app_length, Hlen, Hx. lia. }
      apply Huniq in Hq. rewrite SEP_length in Hq. lia.
    + done.
    + intros target Htarget Ha. rewrite Hstore. by apply rendered_split.
  - intros Hnone.
    assert (find SEP text = None) as Hf.
    { destruct (find SEP text) as [p|] eqn:Hf; [|done].
      destruct (find_Some _ _ _ Hf) as (Heq & Hlen & _).
      exfalso. apply Hnone. exists p. eexists _, _. by split. }
    pose proof (store_translation_not_found text w Hf) as Hstore.
    split; [done|].
    intros target Htarget. rewrite Hstore. by apply rendered_merged.
Qed.

End resplit.

Lemma resplit_one_or_none_witness :
  let text := "A" +:+ SEP +:+ "B" in
  let w := Sample.fresh "sk-test" in
  ((∀ q, Str.occurs_at SEP text q ↔ q = 1)
   ∧ ∃ a b, store_translation (Some text) w
            = (Ok tt, with_audit (with_translations (Some a) (Some b)) w))
  ∧ (¬ Str.contains SEP "AB"
     ∧ store_translation (Some "AB") w
       = (Ok tt, add_shown (StWarning structure_lost_warning)
                   (with_audit (with_translations None (Some "AB")) w))).
Proof.
  intros text w.
  assert (Hone : ∀ q, Str.occurs_at SEP text q ↔ q = 1)
    by (apply occurs_once; reflexivity).
  assert (Hnone : ¬ Str.contains SEP "AB") by (apply find_None; reflexivity).
  split; split; [exact Hone| |exact Hnone|].
  - destruct (proj1 (resplit_one_or_none text w) 1 Hone)
      as (a & b & _ & _ & _ & _ & Hstore & _).
    exists a, b. exact Hstore.
  - exact (proj1 (proj2 (resplit_one_or_none "AB" w) Hnone)).
Defined.


(** The stored parts on the two sample texts, computed. *)
Example resplit_once_computed :
  (store_translation (Some ("A" +:+ SEP +:+ "B")) (Sample.fresh "sk-test")).2
  = with_audit (with_translations (Some "A") (Some "B")) (Sample.fresh "sk-test").
Proof. reflexivity. Qed.

Example resplit_twice_computed :
  (store_translation (Some ("A" +:+ SEP +:+ "B" +:+ SEP +:+ "C"))
     (Sample.fresh "sk-test")).2
  = with_audit (with_translations (Some "A") (Some ("B" +:+ SEP +:+ "C")))
      (Sample.fresh "sk-test").
Proof. reflexivity. Qed.

(** A text that begins with the delimiter is split too, into an empty
    first part and the rest; no warning is shown, but the page, which
    tests the truth value of [translated_data], shows the rest under the
    merged heading. *)
Example resplit_leading_delimiter :
  let w' := (store_translation (Some (SEP +:+ "A" +:+ SEP +:+ "B"))
               (Sample.fresh "sk-test")).2 in
  translated_data (audit w') = Some ""
  ∧ translated_eval (audit w') = Some ("A" +:+ SEP +:+ "B")
  ∧ shown w' = []
  ∧ Page.rendered_page "English (英文)" (audit w')
    = Page.MergedPage ("A" +:+ SEP +:+ "B").
Proof. repeat split; reflexivity. Qed.

(** The delimiter begins and ends with the same two line feeds, so two
    occurrences can share them; the split consumes the shared line feeds
    and what is left of the second occurrence is not a delimiter. *)
Example resplit_overlapping :
  let text := SEP +:+ "***AI_EVAL_SEP***" +:+ Str.nl +:+ Str.nl in
  Str.occurs_at SEP text 0 ∧ Str.occurs_at SEP text 19
  ∧ (store_translation (Some text) (Sample.fresh "sk-test")).2
    = with_audit (with_translations (Some "")
                    (Some ("***AI_EVAL_SEP***" +:+ Str.nl +:+ Str.nl)))
        (Sample.fresh "sk-test")
  ∧ ¬ Str.contains SEP ("***AI_EVAL_SEP***" +:+ Str.nl +:+ Str.nl).
Proof.
  intros text. split; [|split; [|split]].
  - exists "", ("***AI_EVAL_SEP***" +:+ Str.nl +:+ Str.nl). by split.
  - exists (Str.nl +:+ Str.nl +:+ "***AI_EVAL_SEP***"), "". by split.
  - reflexivity.
  - apply find_None. reflexivity.
Qed.

(** ** Translation: the identity shortcut *)

Section translate_properties.
Context `{!Service, !Text}.
Implicit Types (text target key : string) (w : world).

Lemma eqb_empty_false key : key ≠ "" → String.eqb key "" = false.
Proof. intros Hne. by apply String.eqb_neq. Qed.

Lemma translate_report_no_key text target w :
  translate_report text target "" w = (Ok (None, Some "API Key 缺失"), w).
Proof. reflexivity. Qed.

Lemma translate_report_native text key w :
  key ≠ "" →
  translate_report text NATIVE key w = (Ok (Some text, None), w).
Proof.
  intros Hkey. unfold translate_report. by rewrite (eqb_empty_false _ Hkey).
Qed.

Lemma translate_report_call text target key w :
  key ≠ "" → target ≠ NATIVE →
  translate_report text target key w
  = match chat_completions_create (sent w) (translation_request target text) with
    | Content c => (Ok (c, None), add_sent (translation_request target text) w)
    | Failure msg =>
        (Ok (None, Some ("翻译调用出错: " +:+ exn_str (ServiceError msg))),
         add_sent (translation_request target text) w)
    end.
Proof.
  intros Hkey Htarget. unfold translate_report, NATIVE in *.
  rewrite (eqb_empty_false _ Hkey).
  rewrite (proj2 (String.eqb_neq target _) Htarget).
  unfold_eff. by destruct (chat_completions_create _ _).
Qed.

End translate_properties.



(** ** The audit run and the translation of its result *)

Section audit_properties.
Context `{!Service, !Text}.
Implicit Types (text target key : string) (w : world).

Lemma audit_run_success text w extracted evaluation :
  text ≠ "" → api_key w ≠ "" →
  audit_succeeds text w extracted evaluation →
  audit_run (Some text) w
  = (Ok tt, with_audit (λ _, new_audit extracted evaluation)
              (add_sent (evaluation_request extracted)
                 (add_sent (extraction_request text) w))).
Proof.
  intros Htext Hkey (content & H1 & H2 & H3). unfold audit_run.
  rewrite (eqb_empty_false _ Htext). unfold_eff.
  rewrite (eqb_empty_false _ Hkey), H1, H2. simpl. by rewrite H3.
Qed.

Lemma audit_run_failure text w :
  (∀ extracted evaluation, ¬ audit_succeeds text w extracted evaluation) →
  audit (audit_run (Some text) w).2 = audit w.
Proof.
  intros Hfail. unfold audit_run.
  destruct (String.eqb text ""); [done|]. unfold_eff.
  destruct (String.eqb (api_key w) ""); [done|].
  destruct (chat_completions_create (sent w) _) as [content|msg] eqn:H1;
    [|done].
  destruct (loads content) as [extracted|e] eqn:H2;
    [|by destruct (is_Exception e)].
  simpl.
  destruct (chat_completions_create (sent w ++ _) _) as [evaluation|msg] eqn:H3;
    [|done].
  exfalso. apply (Hfail extracted evaluation). by exists content.
Qed.

Lemma audit_run_idle report_text w :
  report_text = None ∨ report_text = Some "" ∨ api_key w = "" →
  audit (audit_run report_text w).2 = audit w.
Proof.
  intros Hidle. unfold audit_run.
  destruct report_text as [text|]; [|done].
  destruct (String.eqb text "") eqn:Htext; [done|]. unfold_eff.
  destruct Hidle as [|[[= ->]|Hkey]]; [done..|]. by rewrite Hkey.
Qed.
(** A translation never assigns the audit pair. *)
Lemma translate_button_keeps_pair target w :
  extracted_data (audit (translate_button target w).2)
  = extracted_data (audit w)
  ∧ evaluation_markdown (audit (translate_button target w).2)
    = evaluation_markdown (audit w).
Proof.
  unfold translate_button, translate_report, store_translation. unfold_eff.
  repeat (case_match; simpl in *; simplify_eq; try done).
Qed.

Lemma translate_button_failure target w evaluation markdown msg :
  truthy (extracted_data (audit w)) = true →
  evaluation_markdown (audit w) = Some evaluation →
  evaluation ≠ "" → api_key w ≠ "" → target ≠ NATIVE →
  data_markdown (extracted_data (audit w)) = Ok markdown →
  chat_completions_create (sent w)
    (translation_request target (markdown +:+ SEP +:+ evaluation))
  = Failure msg →
  translate_button target w
  = (Ok tt,
     with_audit (with_translations None None)
       (add_shown
          (StError ("翻译失败: " +:+ "翻译调用出错: " +:+ exn_str (ServiceError msg)))
          (add_sent (translation_request target (markdown +:+ SEP +:+ evaluation))
             w))).
Proof.
  intros Hex Hev Hne Hkey Htarget Hmd. unfold translate_button.
  generalize SEP. intros sep Hfail. unfold_eff.
  rewrite Hev, Hex, Hmd. simpl.
  rewrite (eqb_empty_false _ Hne). simpl.
  rewrite (eqb_empty_false _ Hkey).
  rewrite (translate_report_call _ _ _ _ Hkey Htarget), Hfail.
  reflexivity.
Qed.

(** C2: after an audit run the four fields are either all as before or
    hold the run's new pair with both translated fields absent; the
    second happens when both service calls and the parse go through,
    the first whenever one of them fails. *)
Theorem audit_run_atomic report_text w :
  (audit (audit_run report_text w).2 = audit w
   ∨ ∃ extracted evaluation,
       audit (audit_run report_text w).2 = new_audit extracted evaluation)
  ∧ (∀ text extracted evaluation,
       report_text = Some text → text ≠ "" → api_key w ≠ "" →
       audit_succeeds text w extracted evaluation →
       (audit_run report_text w).1 = Ok tt
       ∧ audit (audit_run report_text w).2 = new_audit extracted evaluation)
  ∧ (∀ text,
       report_text = Some text →
       (∀ extracted evaluation, ¬ audit_succeeds text w extracted evaluation) →
       audit (audit_run report_text w).2 = audit w).
Proof.
  split; [|split].
  - destruct report_text as [text|]; [|by left].
    destruct (decide (text = "")) as [->|Htext]; [by left|].
    destruct (decide (api_key w = "")) as [Hkey|Hkey].
    { left. apply audit_run_idle. auto. }
    destruct (chat_completions_create (sent w) (extraction_request text))
      as [content|msg] eqn:H1.
    2:{ left. apply audit_run_failure. intros ?? (? & ? & _). congruence. }
    destruct (loads content) as [extracted|e] eqn:H2.
    2:{ left. apply audit_run_failure. intros ?? (? & ? & ? & _). congruence. }
    destruct (chat_completions_create (sent w ++ [extraction_request text])
                (evaluation_request extracted)) as [evaluation|msg] eqn:H3.
    2:{ left. apply audit_run_failure. intros ?? (? & ? & ? & ?). congruence. }
    right. exists extracted, evaluation.
    rewrite (audit_run_success text w extracted evaluation); [done..|].
    by exists content.
  - intros text extracted evaluation -> Htext Hkey Hok.
    by rewrite (audit_run_success text w extracted evaluation).
  - intros text -> Hfail. by apply audit_run_failure.
Qed.

(** C3, as amended: a failed action leaves the committed pair
    [extracted_data], [evaluation_markdown] as it was.  A translation,
    failed or not, never assigns the pair; a translation whose service
    call fails sets both translated fields to absent; an audit run that
    fails leaves all four fields as they were. *)
Theorem failed_action_keeps_audit_pair target report_text w :
  (extracted_data (audit (translate_button target w).2)
   = extracted_data (audit w)
   ∧ evaluation_markdown (audit (translate_button target w).2)
     = evaluation_markdown (audit w))
  ∧ (∀ evaluation markdown msg,
       truthy (extracted_data (audit w)) = true →
       evaluation_markdown (audit w) = Some evaluation →
       evaluation ≠ "" → api_key w ≠ "" → target ≠ NATIVE →
       data_markdown (extracted_data (audit w)) = Ok markdown →
       chat_completions_create (sent w)
         (translation_request target (markdown +:+ SEP +:+ evaluation))
       = Failure msg →
       (translate_button target w).1 = Ok tt
       ∧ audit (translate_button target w).2
         = with_translations None None (audit w))
  ∧ (∀ text,
       report_text = Some text →
       (∀ extracted evaluation, ¬ audit_succeeds text w extracted evaluation) →
       audit (audit_run report_text w).2 = audit w).
Proof.
  split; [apply translate_button_keeps_pair|]. split.
  - intros evaluation markdown msg Hex Hev Hne Hkey Htarget Hmd Hfail.
    by rewrite (translate_button_failure _ _ _ _ _ Hex Hev Hne Hkey Htarget
                  Hmd Hfail).
  - intros text -> Hfail. by apply audit_run_failure.
Qed.
End audit_properties.

Lemma audit_run_atomic_witness :
  let w := Sample.fresh "sk-test" in
  let ok := Sample.scripted Sample.audit_script in
  let down := Sample.scripted [] in
  ("8D report" ≠ "" ∧ api_key w ≠ ""
   ∧ @audit_succeeds ok Sample.text "8D report" w
       (PDict Sample.sparse_report) (Some "## D2")
   ∧ ∀ extracted evaluation,
       ¬ @audit_succeeds down Sample.text "8D report" w extracted evaluation)
  ∧ audit (@audit_run ok Sample.text (Some "8D report") w).2
    = new_audit (PDict Sample.sparse_report) (Some "## D2")
  ∧ audit (@audit_run down Sample.text (Some "8D report") w).2 = audit w.
Proof.
  intros w ok down.
  assert (Htext : "8D report" ≠ "") by discriminate.
  assert (Hkey : api_key w ≠ "") by discriminate.
  assert (Hok : @audit_succeeds ok Sample.text "8D report" w
                  (PDict Sample.sparse_report) (Some "## D2")).
  { exists (Some Sample.sparse_response).
    split; [reflexivity|]. split; [vm_compute; reflexivity|reflexivity]. }
  assert (Hdown : ∀ extracted evaluation,
             ¬ @audit_succeeds down Sample.text "8D report" w extracted evaluation).
  { intros extracted evaluation (content & Hcall & _). discriminate Hcall. }
  split; [exact (conj Htext (conj Hkey (conj Hok Hdown)))|]. split.
  - exact (proj2 (proj1 (proj2 (@audit_run_atomic ok Sample.text
                                  (Some "8D report") w))
                    "8D report" _ _ eq_refl Htext Hkey Hok)).
  - exact (proj2 (proj2 (@audit_run_atomic down Sample.text
                           (Some "8D report") w))
             "8D report" eq_refl Hdown).
Defined.

Lemma failed_action_keeps_audit_pair_witness :
  let w := Sample.translated_session in
  let down := Sample.scripted [] in
  let target := "English (英文)" in
  (truthy (extracted_data (audit w)) = true
   ∧ evaluation_markdown (audit w) = Some "## D2"
   ∧ "## D2" ≠ "" ∧ api_key w ≠ "" ∧ target ≠ NATIVE
   ∧ @data_markdown Sample.text (extracted_data (audit w))
     = Ok Sample.sparse_markdown
   ∧ @chat_completions_create down (sent w)
       (@translation_request Sample.text target
          (Sample.sparse_markdown +:+ SEP +:+ "## D2"))
     = Failure "connection error")
  ∧ audit (@translate_button down Sample.text target w).2
    = with_translations None None (audit w).
Proof.
  intros w down target.
  assert (H1 : truthy (extracted_data (audit w)) = true) by (vm_compute; reflexivity).
  assert (H2 : evaluation_markdown (audit w) = Some "## D2") by reflexivity.
  assert (H3 : "## D2" ≠ "") by discriminate.
  assert (H4 : api_key w ≠ "") by discriminate.
  assert (H5 : target ≠ NATIVE) by discriminate.
  assert (H6 : @data_markdown Sample.text (extracted_data (audit w))
               = Ok Sample.sparse_markdown) by (vm_compute; reflexivity).
  assert (H7 : @chat_completions_create down (sent w)
                 (@translation_request Sample.text target
                    (Sample.sparse_markdown +:+ SEP +:+ "## D2"))
               = Failure "connection error") by reflexivity.
  split; [exact (conj H1 (conj H2 (conj H3 (conj H4 (conj H5 (conj H6 H7))))))|].
  exact (proj2 (proj1 (proj2 (@failed_action_keeps_audit_pair down Sample.text
                                target None w))
                  _ _ _ H1 H2 H3 H4 H5 H6 H7)).
Defined.

(** C3, as stated, fails: a session holds an audit and its translation;
    the next translation call fails, and the stored translation is gone. *)
Lemma failed_translation_discards_translation :
  let w := Sample.translated_session in
  let w' := (@translate_button (Sample.scripted []) Sample.text
               "English (英文)" w).2 in
  translated_data (audit w) = Some "# Report"
  ∧ translated_eval (audit w) = Some "## D2 (en)"
  ∧ translated_data (audit w') = None
  ∧ translated_eval (audit w') = None
  ∧ audit w' ≠ audit w.
Proof.
  intros w w'.
  assert (Hdata : translated_data (audit w') = None) by (vm_compute; reflexivity).
  assert (Heval : translated_eval (audit w') = None) by (vm_compute; reflexivity).
  repeat split; [done..|].
  intros Heq. rewrite Heq in Hdata. discriminate Hdata.
Qed.

(** ** Extraction: what is stored, what the preview reads *)

Section extraction_properties.
Context `{!Service, !Text}.
Implicit Types (d : gmap string pyval) (w : world).


End extraction_properties.



(** ** Adopting the suggested 5 Whys *)

Section adopt_properties.
Import D4.
Implicit Types (ws fw : list pyval) (ai : gmap string pyval).

Lemma truthy_dict_with_key ai k v : ai !! k = Some v → truthy (PDict ai) = true.
Proof.
  intros Hk. simpl. apply negb_true_iff, bool_decide_eq_false.
  intros ->. by rewrite lookup_empty in Hk.
Qed.

Lemma adopt_button_run ws rc0 ai fw rc :
  length ws = 5 → length fw ≤ 5 →
  ai !! "five_whys" = Some (PList fw) → ai !! "root_cause" = Some rc →
  adopt_button {| whys := ws; root_cause := rc0; ai_analysis := PDict ai |}
  = (Raise RerunException,
     {| whys := fw ++ drop (length fw) ws; root_cause := rc;
        ai_analysis := PNone |}).
Proof.
  intros Hws Hfw Hfive Hcause.
  unfold adopt_button, adopt, for_each, adopt_slot, set_why,
    set_root_cause, set_ai_analysis.
  unfold lift, modify, gets, mbind, mret, StateExn_bind, StateExn_ret.
  cbn [ai_analysis]. rewrite (truthy_dict_with_key _ _ _ Hfive).
  unfold getitem. rewrite Hcause, !Hfive.
  destruct ws as [|w0 [|w1 [|w2 [|w3 [|w4 [|]]]]]]; try discriminate Hws.
  destruct fw as [|f0 [|f1 [|f2 [|f3 [|f4 [|]]]]]];
    [reflexivity..|simpl in Hfw; lia].
Qed.

(** C6: with five slots in [whys] and a pending suggestion whose
    [five_whys] has [k ≤ 5] entries, pressing adopt ends (in the rerun
    of the page) with the first [k] slots holding the suggestion's
    entries in order, the slots from [k] on as they were, [root_cause]
    replaced by the suggestion's and the pending suggestion cleared;
    pressed again on that state it changes nothing. *)
Theorem adopt_overwrites_first_k ws rc0 ai fw rc k :
  length ws = 5 → length fw = k → k ≤ 5 →
  ai !! "five_whys" = Some (PList fw) → ai !! "root_cause" = Some rc →
  ∃ ws',
    adopt_button {| whys := ws; root_cause := rc0; ai_analysis := PDict ai |}
    = (Raise RerunException,
       {| whys := ws'; root_cause := rc; ai_analysis := PNone |})
    ∧ length ws' = 5
    ∧ (∀ i, i < k → ws' !! i = fw !! i)
    ∧ (∀ i, k ≤ i → ws' !! i = ws !! i)
    ∧ adopt_button {| whys := ws'; root_cause := rc; ai_analysis := PNone |}
      = (Ok tt, {| whys := ws'; root_cause := rc; ai_analysis := PNone |}).
Proof.
  intros Hws Hk Hle Hfive Hcause. exists (fw ++ drop k ws).
  split; [|split; [|split; [|split]]].
  - rewrite <-Hk. apply adopt_button_run; [done|lia|done..].
  - rewrite length_app, length_drop. lia.
  - intros i Hi. apply lookup_app_l. lia.
  - intros i Hi. rewrite lookup_app_r by lia. rewrite lookup_drop.
    f_equal. lia.
  - reflexivity.
Qed.
End adopt_properties.

Lemma adopt_overwrites_first_k_witness :
  let ws := [PStr "a"; PStr "b"; PStr "c"; PStr "d"; PStr "e"] in
  let fw := [PStr "x"; PStr "y"; PStr "z"] in
  let ai : gmap string pyval :=
    {[ "five_whys" := PList fw; "root_cause" := PStr "worn tool" ]} in
  (length ws = 5 ∧ length fw = 3 ∧ 3 ≤ 5
   ∧ ai !! "five_whys" = Some (PList fw)
   ∧ ai !! "root_cause" = Some (PStr "worn tool"))
  ∧ ∃ ws',
      D4.adopt_button {| D4.whys := ws; D4.root_cause := PStr "";
                         D4.ai_analysis := PDict ai |}
      = (Raise RerunException,
         {| D4.whys := ws'; D4.root_cause := PStr "worn tool";
            D4.ai_analysis := PNone |})
      ∧ ws' !! 0 = Some (PStr "x") ∧ ws' !! 2 = Some (PStr "z")
      ∧ ws' !! 3 = Some (PStr "d") ∧ ws' !! 4 = Some (PStr "e").
Proof.
  intros ws fw ai.
  assert (H1 : length ws = 5) by reflexivity.
  assert (H2 : length fw = 3) by reflexivity.
  assert (H3 : 3 ≤ 5) by lia.
  assert (H4 : ai !! "five_whys" = Some (PList fw)) by (vm_compute; reflexivity).
  assert (H5 : ai !! "root_cause" = Some (PStr "worn tool"))
    by (vm_compute; reflexivity).
  split; [exact (conj H1 (conj H2 (conj H3 (conj H4 H5))))|].
  destruct (adopt_overwrites_first_k ws (PStr "") ai fw (PStr "worn tool") 3
              H1 H2 H3 H4 H5) as (ws' & Hrun & _ & Hlow & Hhigh & _).
  exists ws'. split; [exact Hrun|].
  rewrite (Hlow 0), (Hlow 2), (Hhigh 3), (Hhigh 4) by lia.
  repeat split; reflexivity.
Defined.

(** The same adoption, computed. *)
Example adopt_three_of_five :
  D4.adopt_button
    {| D4.whys := [PStr "a"; PStr "b"; PStr "c"; PStr "d"; PStr "e"];
       D4.root_cause := PStr "";
       D4.ai_analysis :=
         PDict {[ "five_whys" := PList [PStr "x"; PStr "y"; PStr "z"];
                  "root_cause" := PStr "worn tool" ]} |}
  = (Raise RerunException,
     {| D4.whys := [PStr "x"; PStr "y"; PStr "z"; PStr "d"; PStr "e"];
        D4.root_cause := PStr "worn tool"; D4.ai_analysis := PNone |}).
Proof. vm_compute. reflexivity. Qed.

(** At the start there is no suggestion and nothing to adopt. *)
Example adopt_nothing_pending : D4.adopt_button D4.d4_init = (Ok tt, D4.d4_init).
Proof. reflexivity. Qed.

(** A suggestion without [root_cause]: the slots are already overwritten
    when the lookup raises, and the suggestion stays pending. *)
Example adopt_without_root_cause :
  D4.adopt_button
    {| D4.whys := [PStr "a"; PStr "b"; PStr "c"; PStr "d"; PStr "e"];
       D4.root_cause := PStr "old";
       D4.ai_analysis := PDict {[ "five_whys" := PList [PStr "x"] ]} |}
  = (Raise KeyError,
     {| D4.whys := [PStr "x"; PStr "b"; PStr "c"; PStr "d"; PStr "e"];
        D4.root_cause := PStr "old";
        D4.ai_analysis := PDict {[ "five_whys" := PList [PStr "x"] ]} |}).
Proof. vm_compute. reflexivity. Qed.

(** ** Word export *)

Section word_properties.
Import Word.
Context `{!Docx, !Text}.
Implicit Types (d : gmap string pyval) (a b : res (list docx_call)).




Lemma then_raises_only P a b :
  raises_only P a → raises_only P b → raises_only P (then_ a b).
Proof. by destruct a, b. Qed.


Lemma each_raises_only {A} P (f : A → res (list docx_call)) (l : list A) :
  (∀ x, raises_only P (f x)) → raises_only P (each f l).
Proof.
  intros Hf. induction l as [|x l IH]; simpl; [done|].
  by apply then_raises_only.
Qed.








End word_properties.


(** The export computed on three reports: without the action fields,
    with a string among the actions, and with mappings only. *)
Example word_export_sparse :
  @Word.create_word_document Sample.docx Sample.text
    (PDict Sample.sparse_report) "## D2" false "2024-06-10 09:00:00"
  = Raise AttributeError.
Proof. vm_compute. reflexivity. Qed.

Example word_export_string_action :
  @Word.create_word_document Sample.docx Sample.text
    (PDict {[ "D3_ICA" := PList [PDict {[ "action" := PStr "sort stock" ]};
                                 PStr "100% inspection"];
              "D5_Actions" := PList [] ]})
    "## D2" false "2024-06-10 09:00:00"
  = Raise AttributeError.
Proof. vm_compute. reflexivity. Qed.

(** The model may answer "N/A" for a field it cannot fill: a string in
    place of the list is iterated character by character. *)
Example word_export_string_field :
  @Word.create_word_document Sample.docx Sample.text
    (PDict {[ "D3_ICA" := PStr "N/A"; "D5_Actions" := PList [] ]})
    "## D2" false "2024-06-10 09:00:00"
  = Raise AttributeError.
Proof. vm_compute. reflexivity. Qed.

(** After a translation that lost the delimiter, the exported document
    carries the merged-content notice. *)
Example word_export_merged :
  let w := Sample.translated_session in
  let w' := (store_translation (Some "no delimiter here") w).2 in
  ∃ calls,
    @Page.export_document Sample.docx Sample.text "English (英文)" (audit w')
      "2024-06-10 09:00:00" = Some (Ok calls)
    ∧ Word.AddParagraph (PStr "--- 结构化数据与评估合并显示 ---") None ∈ calls.
Proof.
  intros w w'. eexists. split; [vm_compute; reflexivity|].
  apply list_elem_of_In. vm_compute. auto 10.
Qed.

Example word_export_mappings :
  is_ok (@Word.create_word_document Sample.docx Sample.text
           (PDict {[ "D3_ICA" := PList [PDict {[ "action" := PStr "sort stock" ]}];
                     "D5_Actions" := PList [PDict {[ "action" := PStr "new fixture" ]}] ]})
           "## D2" false "2024-06-10 09:00:00")
  = true.
Proof. vm_compute. reflexivity. Qed.

(** * Further properties of the code *)

(** ** Splitting and joining *)

Section join_properties.
Import Str Join.
Implicit Types (s sep text : string) (c : ascii).

(** Splitting a text once on a separator gives one part, when the
    separator does not occur, or two; in both cases joining the parts
    with the separator gives the text back. *)
Lemma split1_rejoin sep text :
  join sep (split1 sep text) = text
  ∧ ((length (split1 sep text) = 1 ∧ ¬ contains sep text)
     ∨ (length (split1 sep text) = 2 ∧ contains sep text)).
Proof.
  unfold split1. destruct (find sep text) as [p|] eqn:Hf.
  - destruct (find_Some _ _ _ Hf) as (Heq & Hlen & _). split.
    + simpl. by rewrite <-Heq.
    + right. split; [done|]. exists p. eexists _, _. by split.
  - split; [done|]. left. split; [done|]. by apply find_None.
Qed.

Lemma split_char_nonempty c s : split_char c s ≠ [].
Proof.
  destruct s as [|a s]; simpl; [done|].
  case_bool_decide; [done|]. by destruct (split_char c s).
Qed.

Lemma join_cons_nonempty sep x l :
  l ≠ [] → join sep (x :: l) = x +:+ sep +:+ join sep l.
Proof. by destruct l. Qed.

(** The parts [s.split(c)] cuts a text into contain no [c], there is at
    least one, and joining them with [c] gives the text back. *)
Lemma split_char_rejoin c s :
  join (String c EmptyString) (split_char c s) = s
  ∧ Forall (λ part, has_char c part = false) (split_char c s)
  ∧ split_char c s ≠ [].
Proof.
  split; [|split; [|apply split_char_nonempty]].
  - induction s as [|a s IH]; simpl; [done|].
    pose proof (split_char_nonempty c s) as Hne.
    case_bool_decide as Hac.
    + rewrite join_cons_nonempty by done. simpl. by rewrite IH, Hac.
    + destruct (split_char c s) as [|h t] eqn:Hs; [done|].
      destruct t as [|h' t]; simpl in *; by rewrite <-IH.
  - induction s as [|a s IH]; simpl; [by repeat constructor|].
    pose proof (split_char_nonempty c s) as Hne.
    case_bool_decide as Hac.
    + by constructor.
    + destruct (split_char c s) as [|h t] eqn:Hs; [done|].
      apply Forall_cons_1 in IH as [Hh Ht]. constructor; [|done].
      simpl. rewrite Hh. by rewrite bool_decide_eq_false_2.
Qed.
End join_properties.

(** X1: the re-split loses nothing of a translated text: either it is
    stored whole in [translated_eval], and then it has no delimiter, or
    it is stored in two parts and the first part, the delimiter and the
    second part make up the text again. *)
Theorem store_translation_lossless (text : string) (w : world) :
  let a := audit (store_translation (Some text) w).2 in
  (translated_data a = None ∧ translated_eval a = Some text
   ∧ ¬ Str.contains SEP text)
  ∨ (∃ data eval,
       translated_data a = Some data ∧ translated_eval a = Some eval
       ∧ data +:+ SEP +:+ eval = text).
Proof.
  destruct (Str.find SEP text) as [p|] eqn:Hf.
  - right. rewrite (store_translation_found _ _ _ Hf).
    destruct (find_Some _ _ _ Hf) as (Heq & _ & _). eexists _, _.
    split; [done|]. split; [done|]. by rewrite <-Heq.
  - left. rewrite (store_translation_not_found _ _ Hf).
    split; [done|]. split; [done|]. by apply find_None.
Qed.

(** ** Dates written and read back *)

Section iso_properties.
Import Date Join.
#[local] Open Scope Z_scope.

Ltac digit_cases k :=
  let H := fresh in
  assert (H : k = 0 ∨ k = 1 ∨ k = 2 ∨ k = 3 ∨ k = 4 ∨ k = 5 ∨ k = 6
              ∨ k = 7 ∨ k = 8 ∨ k = 9) by lia;
  destruct H as [->|[->|[->|[->|[->|[->|[->|[->|[->| ->]]]]]]]]].

Ltac month_cases m :=
  let H := fresh in
  assert (H : m = 1 ∨ m = 2 ∨ m = 3 ∨ m = 4 ∨ m = 5 ∨ m = 6 ∨ m = 7
              ∨ m = 8 ∨ m = 9 ∨ m = 10 ∨ m = 11 ∨ m = 12) by lia;
  destruct H as [->|[->|[->|[->|[->|[->|[->|[->|[->|[->|[->| ->]]]]]]]]]]].

Lemma digit_digit_char k : 0 ≤ k ≤ 9 → digit (digit_char k) = Some k.
Proof. intros Hk. digit_cases k; reflexivity. Qed.

Ltac day_cases d :=
  let H := fresh in
  assert (H : d = 1 ∨ d = 2 ∨ d = 3 ∨ d = 4 ∨ d = 5 ∨ d = 6 ∨ d = 7
              ∨ d = 8 ∨ d = 9 ∨ d = 10 ∨ d = 11 ∨ d = 12 ∨ d = 13
              ∨ d = 14 ∨ d = 15 ∨ d = 16 ∨ d = 17 ∨ d = 18 ∨ d = 19
              ∨ d = 20 ∨ d = 21 ∨ d = 22 ∨ d = 23 ∨ d = 24 ∨ d = 25
              ∨ d = 26 ∨ d = 27 ∨ d = 28 ∨ d = 29 ∨ d = 30 ∨ d = 31) by lia;
  repeat (destruct H as [->|H]); [..|subst d].

Lemma parse_written a b c e Y m d :
  digit a = Some (Y / 1000) → digit b = Some (Y / 100 mod 10) →
  digit c = Some (Y / 10 mod 10) → digit e = Some (Y mod 10) →
  0 ≤ Y → 1 ≤ m ≤ 12 → 1 ≤ d ≤ 31 →
  strptime_ymd
    (String a (String b (String c (String e
       ("-" +:+ two_digits m +:+ "-" +:+ two_digits d)))))
  = make Y m d.
Proof.
  intros Ha Hb Hc He HY Hm Hd. unfold strptime_ymd.
  assert (Y / 1000 * 1000 + Y / 100 mod 10 * 100 + Y / 10 mod 10 * 10
          + Y mod 10 = Y) as HYeq by (Z.div_mod_to_equations; lia).
  month_cases m; day_cases d; simpl; rewrite Ha, Hb, Hc, He, HYeq;
    reflexivity.
Qed.

(** A date written by [strftime('%Y-%m-%d')], the year having four
    digits, is read back by [strptime] as the same date; when the fields
    are not a date of the calendar, the reading fails as the
    construction of the date does. *)
Lemma isoformat_read_back y m d :
  1000 ≤ y ≤ 9999 → 1 ≤ m ≤ 12 → 1 ≤ d ≤ 31 →
  strptime_ymd (isoformat y m d) = make y m d.
Proof.
  intros Hy Hm Hd. unfold isoformat, four_digits. simpl.
  apply parse_written; try lia;
    apply digit_digit_char; Z.div_mod_to_equations; lia.
Qed.

Lemma days_in_month_le_31 y m : 1 ≤ m ≤ 12 → days_in_month y m ≤ 31.
Proof.
  intros Hm. unfold days_in_month. destruct (_ && _); [lia|].
  month_cases m; simpl; lia.
Qed.
End iso_properties.

(** ** The action lists of the authoring mode *)

Section status_range.
Import Status.
Context `{!Strptime}.

Lemma classify_results today d r :
  classify today d = Ok r →
  r = ("Overdue", Overdue_label) ∨ r = ("DueSoon", DueSoon_label)
  ∨ r = ("Open", InProgress_label).
Proof.
  unfold classify. destruct (strptime_date d) as [due|]; simpl; [|done].
  case_match; [intros [= <-]; auto|].
  destruct (Date.add_days today 7); simpl; [|done].
  case_match; intros [= <-]; auto.
Qed.

Lemma get_action_status_results today d status :
  let r := get_action_status today d status in
  (status = "Completed" ∧ r = ("Completed", Completed_label))
  ∨ (status ≠ "Completed"
     ∧ (r = ("Overdue", Overdue_label) ∨ r = ("DueSoon", DueSoon_label)
        ∨ r = ("Open", InProgress_label) ∨ r = ("Open", DateNotSet_label))).
Proof.
  unfold get_action_status.
  destruct (String.eqb_spec status "Completed") as [->|Hne]; [by left|].
  right. split; [done|].
  destruct (classify today d) as [r|] eqn:Hr; [|auto].
  apply classify_results in Hr. destruct Hr as [->|[->| ->]]; auto.
Qed.

(** X2: as days pass, an item that is not completed only moves towards
    overdue: once overdue it stays overdue, a due-soon item stays
    due-soon or becomes overdue, and an item shown as in progress on
    the later day was in progress on the earlier one. *)
Theorem status_advances_with_time today later d status limit :
  (1 ≤ Date.toordinal today ≤ Date.toordinal later)%Z →
  Date.add_days later 7 = Ok limit →
  (get_action_status today d status = ("Overdue", Overdue_label) →
   get_action_status later d status = ("Overdue", Overdue_label))
  ∧ (get_action_status today d status = ("DueSoon", DueSoon_label) →
     get_action_status later d status = ("Overdue", Overdue_label)
     ∨ get_action_status later d status = ("DueSoon", DueSoon_label))
  ∧ (get_action_status later d status = ("Open", InProgress_label) →
     get_action_status today d status = ("Open", InProgress_label)).
Proof.
  intros Hle Hlimit. unfold get_action_status, classify. rewrite Hlimit.
  pose proof (add_days_ordinal _ _ _ Hlimit) as Hord.
  assert (Hmax : (Date.toordinal later + 7 ≤ Date.MAXORDINAL)%Z).
  { revert Hlimit. unfold Date.add_days. case_match eqn:Hin; [|done].
    apply andb_true_iff in Hin as [_ Hin]. lia. }
  destruct (String.eqb status "Completed"); [by repeat split|].
  destruct (strptime_date d) as [due|e]; simpl; [|by repeat split].
  unfold Date.ltb, Date.leb, Date.add_days.
  replace ((0 <? Date.toordinal today + 7)%Z
           && (Date.toordinal today + 7 <=? Date.MAXORDINAL)%Z) with true
    by (symmetry; apply andb_true_iff; lia).
  simpl. rewrite Hord.
  destruct (Z.ltb_spec (Date.toordinal due) (Date.toordinal today)),
    (Z.ltb_spec (Date.toordinal due) (Date.toordinal later)),
    (Z.leb_spec (Date.toordinal due) (Date.toordinal today + 7)),
    (Z.leb_spec (Date.toordinal due) (Date.toordinal later + 7));
    repeat split; intros; try done; try lia; auto.
Qed.
End status_range.

Lemma status_advances_with_time_witness :
  let today := Date.of_ordinal 739047 in
  let later := Date.of_ordinal 739050 in
  ((1 ≤ Date.toordinal today ≤ Date.toordinal later)%Z
   ∧ Date.add_days later 7 = Ok (Date.of_ordinal 739057)
   ∧ @Status.get_action_status Date.strptime_ymd today "2024-06-12" "Open"
     = ("DueSoon", Status.DueSoon_label))
  ∧ (@Status.get_action_status Date.strptime_ymd later "2024-06-12" "Open"
     = ("Overdue", Status.Overdue_label)
     ∨ @Status.get_action_status Date.strptime_ymd later "2024-06-12" "Open"
       = ("DueSoon", Status.DueSoon_label)).
Proof.
  intros today later.
  assert (H1 : (1 ≤ Date.toordinal today ≤ Date.toordinal later)%Z)
    by (simpl; lia).
  assert (H2 : Date.add_days later 7 = Ok (Date.of_ordinal 739057))
    by reflexivity.
  assert (H3 : @Status.get_action_status Date.strptime_ymd today "2024-06-12" "Open"
               = ("DueSoon", Status.DueSoon_label)) by reflexivity.
  split; [exact (conj H1 (conj H2 H3))|].
  exact (proj1 (proj2 (@status_advances_with_time Date.strptime_ymd today later
                         "2024-06-12" "Open" _ H1 H2)) H3).
Defined.

Section actions_properties.
Import Status Actions.

(** X3: a permanent action added with a non-empty text and a picked
    date (year 1000 or later) is appended as an open entry whose date
    text [strptime] reads back as the picked date; so, while the
    deadline [today + 7 days] exists, its status is never "date not
    set", and it is overdue exactly when the picked date is before
    today. *)
Theorem added_action_keeps_its_date today new_pca y m d d5 due limit :
  new_pca ≠ "" → (1000 ≤ y)%Z → Date.make y m d = Ok due →
  Date.add_days today 7 = Ok limit →
  ∃ a, add_pca new_pca y m d d5 = d5 ++ [a]
       ∧ action a = new_pca ∧ status a = "Open"
       ∧ Date.strptime_ymd (date a) = Ok due
       ∧ (@get_action_status Date.strptime_ymd today (date a) (status a)).2
         ≠ DateNotSet_label
       ∧ ((@get_action_status Date.strptime_ymd today (date a) (status a)).1
          = "Overdue" ↔ (Date.toordinal due < Date.toordinal today)%Z).
Proof.
  intros Hne Hy Hmake Hlimit.
  destruct (make_Ok _ _ _ _ Hmake) as [(Hy' & Hm & Hd) _].
  pose proof (days_in_month_le_31 y m Hm) as H31.
  pose proof (isoformat_read_back y m d ltac:(lia) Hm ltac:(lia)) as Hread.
  rewrite Hmake in Hread.
  exists {| action := new_pca; date := Join.isoformat y m d; status := "Open" |}.
  unfold add_pca. rewrite (eqb_empty_false _ Hne).
  cbn [action date status negb].
  split; [reflexivity|]. split; [reflexivity|]. split; [reflexivity|].
  split; [exact Hread|].
  unfold get_action_status, classify.
  change (strptime_date (Join.isoformat y m d))
    with (Date.strptime_ymd (Join.isoformat y m d)).
  rewrite Hread. cbn [String.eqb Ascii.eqb Bool.eqb mbind res_bind].
  rewrite Hlimit. unfold Date.ltb.
  destruct (Z.ltb_spec (Date.toordinal due) (Date.toordinal today)).
  - cbn [mret res_ret mbind res_bind fst snd]. split; [discriminate|]. done.
  - cbn [mret res_ret mbind res_bind fst snd].
    destruct (Date.leb due limit); cbn [mret res_ret fst snd];
      (split; [discriminate|]); split; intros; first [discriminate | lia].
Qed.
End actions_properties.

Lemma added_action_keeps_its_date_witness :
  let due := Date.of_ordinal 739061 in
  ("new fixture" ≠ "" ∧ (1000 ≤ 2024)%Z ∧ Date.make 2024 6 24 = Ok due
   ∧ Date.add_days Sample.today 7 = Ok (Date.of_ordinal 739054))
  ∧ ∃ a, Actions.add_pca "new fixture" 2024 6 24 [] = [] ++ [a]
         ∧ Actions.action a = "new fixture" ∧ Actions.status a = "Open"
         ∧ Date.strptime_ymd (Actions.date a) = Ok due
         ∧ (@Status.get_action_status Date.strptime_ymd Sample.today
              (Actions.date a) (Actions.status a)).2
           ≠ Status.DateNotSet_label
         ∧ ((@Status.get_action_status Date.strptime_ymd Sample.today
               (Actions.date a) (Actions.status a)).1 = "Overdue"
            ↔ (Date.toordinal due < Date.toordinal Sample.today)%Z).
Proof.
  intros due.
  assert (H1 : "new fixture" ≠ "") by discriminate.
  assert (H2 : (1000 ≤ 2024)%Z) by lia.
  assert (H3 : Date.make 2024 6 24 = Ok due) by reflexivity.
  assert (H4 : Date.add_days Sample.today 7 = Ok (Date.of_ordinal 739054))
    by reflexivity.
  split; [exact (conj H1 (conj H2 (conj H3 H4)))|].
  exact (added_action_keeps_its_date Sample.today "new fixture" 2024 6 24 []
           due _ H1 H2 H3 H4).
Defined.

Section checklist_properties.
Import Status Actions.
Context `{!Strptime}.
Variable today : Date.date.

Lemma toggle_status checked a :
  action (toggle checked a) = action a ∧ date (toggle checked a) = date a
  ∧ (status (toggle checked a) = "Completed" ↔ checked = true)
  ∧ (checked = false → status a ≠ "Completed" →
     status (toggle checked a) = status a).
Proof.
  unfold toggle. destruct checked; simpl; [done|].
  destruct (String.eqb_spec (status a) "Completed") as [Heq|Hne]; simpl;
    repeat split; done.
Qed.

Lemma label_Completed d s :
  (get_action_status today d s).2 = Completed_label ↔ s = "Completed".
Proof.
  destruct (get_action_status_results today d s)
    as [[-> ->]|[Hne [-> |[-> |[-> | ->]]]]]; simpl; split; try done;
    discriminate.
Qed.

(** X4: after the checkbox loop of the D5 tab every entry has its
    action text and date as before and is Completed exactly when its
    box is checked (an unchecked entry that was not Completed keeps its
    status); the label shown beside it is the completed label exactly
    when the box is checked; and running the loop again with the same
    boxes changes nothing. *)
Theorem checklist_follows_checkboxes checked d5 :
  let updated := (checklist today checked d5).1 in
  let labels := (checklist today checked d5).2 in
  length updated = length d5 ∧ length labels = length d5
  ∧ (∀ i a, d5 !! i = Some a →
       ∃ a', updated !! i = Some a'
             ∧ action a' = action a ∧ date a' = date a
             ∧ (status a' = "Completed" ↔ checked i = true)
             ∧ (checked i = false → status a ≠ "Completed" →
                status a' = status a)
             ∧ (labels !! i = Some Completed_label ↔ checked i = true))
  ∧ (checklist today checked updated).1 = updated.
Proof.
  unfold checklist. cbn [fst snd].
  split; [by rewrite length_imap|].
  split; [by rewrite length_fmap, length_imap|].
  split.
  - intros i a Hi. exists (toggle (checked i) a).
    rewrite list_lookup_imap, Hi. cbn [fmap option_fmap option_map].
    destruct (toggle_status (checked i) a) as (Ha & Hd & Hs & Hk).
    split; [done|]. split; [done|]. split; [done|]. split; [done|].
    split; [done|].
    rewrite list_lookup_fmap, list_lookup_imap, Hi.
    cbn [fmap option_fmap option_map]. rewrite <- Hs. split.
    + intros [= Hl]. by apply label_Completed in Hl.
    + intros Hl. f_equal. by apply label_Completed.
  - apply list_eq. intros i. rewrite !list_lookup_imap.
    destruct (d5 !! i) as [a|]; [|done]. cbn [fmap option_fmap option_map].
    f_equal. unfold toggle. destruct (checked i); [done|].
    destruct (String.eqb_spec (status a) "Completed") as [Heq|Hne]; simpl.
    + done.
    + by rewrite (not_Completed _ Hne).
Qed.

(** X5: the rows of the exported report carry the entries' action, date
    and stored status in order; each row gets a class the style sheet of
    the report defines, and both its class and its label say Completed
    exactly when the stored status is Completed, whatever the date text. *)
Theorem report_rows_are_styled d5 :
  let rows := permanent_actions_processed today d5 in
  p_action <$> rows = action <$> d5
  ∧ p_date <$> rows = date <$> d5
  ∧ p_status <$> rows = status <$> d5
  ∧ Forall (λ row, status_class row ∈ styled_classes
                   ∧ (status_class row = "Completed"
                      ↔ p_status row = "Completed")
                   ∧ (status_display row = Completed_label
                      ↔ p_status row = "Completed")) rows.
Proof.
  unfold permanent_actions_processed. cbn zeta.
  rewrite <- !list_fmap_compose.
  split; [done|]. split; [done|]. split; [done|].
  apply Forall_fmap, Forall_forall. intros a _. unfold process. cbn.
  split; [|split; [|apply label_Completed]].
  - destruct (get_action_status_results today (date a) (status a))
      as [[_ ->]|[_ [-> |[-> |[-> | ->]]]]];
      unfold styled_classes; cbn [fst]; set_solver.
  - destruct (get_action_status_results today (date a) (status a))
      as [[-> ->]|[Hne [-> |[-> |[-> | ->]]]]]; cbn [fst]; split; done.
Qed.
End checklist_properties.

Section d3_properties.
Import Actions.

Lemma d3_run_adds d3 texts :
  d3_run d3 (AddICA <$> texts)
  = d3 ++ List.filter (λ t, negb (String.eqb t "")) texts.
Proof.
  unfold d3_run. revert d3.
  induction texts as [|t texts IH]; intros d3; simpl.
  - by rewrite app_nil_r.
  - rewrite IH. destruct (String.eqb t ""); simpl; [done|].
    by rewrite <- app_assoc.
Qed.

Lemma d3_run_app d3 evs evs' :
  d3_run d3 (evs ++ evs') = d3_run (d3_run d3 evs) evs'.
Proof. unfold d3_run. apply foldl_app. Qed.

(** X6: the containment list holds, in the order they were entered, the
    non-empty texts added since it was last cleared: adding appends the
    non-empty texts, whatever happened before a clearing is gone, and no
    sequence of button presses puts an empty text in the list. *)
Theorem containment_list_history d3 events texts :
  d3_run d3 (AddICA <$> texts)
  = d3 ++ List.filter (λ t, negb (String.eqb t "")) texts
  ∧ d3_run d3 (events ++ ClearICA :: (AddICA <$> texts))
    = List.filter (λ t, negb (String.eqb t "")) texts
  ∧ (Forall (λ t, t ≠ "") d3 → Forall (λ t, t ≠ "") (d3_run d3 events)).
Proof.
  split; [apply d3_run_adds|]. split.
  - rewrite d3_run_app. change (ClearICA :: (AddICA <$> texts))
      with ([ClearICA] ++ (AddICA <$> texts)).
    rewrite d3_run_app, d3_run_adds.
    generalize (d3_run d3 events). intros l. by destruct l.
  - revert d3. induction events as [|e events IH]; intros d3 Hd3; [done|].
    apply IH. destruct e as [t|]; simpl.
    + destruct (String.eqb_spec t ""); simpl; [done|].
      apply Forall_app. split; [done|]. by apply Forall_singleton.
    + by destruct d3.
Qed.
End d3_properties.

(** ** The D4 tab: analysis and adoption *)

Section d4_tab_properties.
Import D4 Analyse Spec.

Lemma keeps_slots_bind {A B} (m : StateExn d4_state A) (f : A → StateExn d4_state B) :
  keeps_slots m → (∀ a, keeps_slots (f a)) → keeps_slots (m ≫= f).
Proof.
  intros Hm Hf s. unfold mbind, StateExn_bind.
  specialize (Hm s). destruct (m s) as [[a|e] s']; simpl in *; [|done].
  by rewrite Hf.
Qed.

Lemma keeps_slots_lift {A} (r : res A) : keeps_slots (lift r).
Proof. done. Qed.

Lemma keeps_slots_ret {A} (a : A) : keeps_slots (mret a).
Proof. done. Qed.

Lemma keeps_slots_gets {A} (f : d4_state → A) : keeps_slots (gets f).
Proof. done. Qed.

Lemma keeps_slots_set_why i v : keeps_slots (set_why i v).
Proof.
  intros s. unfold set_why. case_bool_decide; simpl; [|done].
  by rewrite length_insert.
Qed.

Lemma keeps_slots_for_each {A} (f : A → StateExn d4_state unit) l :
  (∀ a, keeps_slots (f a)) → keeps_slots (for_each f l).
Proof.
  intros Hf. induction l as [|x l IH]; simpl; [done|].
  apply keeps_slots_bind; [done|]. by intros _.
Qed.

Lemma keeps_slots_adopt_slot ai i : keeps_slots (adopt_slot ai i).
Proof.
  unfold adopt_slot.
  apply keeps_slots_bind; [apply keeps_slots_lift|]. intros five_whys.
  apply keeps_slots_bind; [apply keeps_slots_lift|]. intros n.
  case_bool_decide; [|apply keeps_slots_ret].
  apply keeps_slots_bind; [apply keeps_slots_lift|]. intros five_whys'.
  apply keeps_slots_bind; [apply keeps_slots_lift|]. intros why.
  apply keeps_slots_set_why.
Qed.

Lemma keeps_slots_adopt_button : keeps_slots adopt_button.
Proof.
  unfold adopt_button.
  apply keeps_slots_bind; [apply keeps_slots_gets|]. intros ai.
  destruct (truthy ai); [|apply keeps_slots_ret].
  apply keeps_slots_bind; [apply keeps_slots_lift|]. intros five_whys.
  apply keeps_slots_bind; [apply keeps_slots_lift|]. intros _.
  unfold adopt.
  apply keeps_slots_bind;
    [apply keeps_slots_for_each, keeps_slots_adopt_slot|]. intros _.
  apply keeps_slots_bind; [apply keeps_slots_lift|]. intros cause.
  apply keeps_slots_bind; [done|]. intros _.
  apply keeps_slots_bind; [done|]. intros _.
  apply keeps_slots_lift.
Qed.

Lemma keeps_slots_suggestion_shown : keeps_slots suggestion_shown.
Proof.
  unfold suggestion_shown.
  apply keeps_slots_bind; [apply keeps_slots_gets|]. intros ai.
  destruct (truthy ai); [|apply keeps_slots_ret].
  apply keeps_slots_bind; [apply keeps_slots_lift|]. intros five_whys.
  apply keeps_slots_bind; [apply keeps_slots_lift|]. intros _.
  apply keeps_slots_ret.
Qed.

Context `{!Service, !Text, !Prompt}.

Lemma analyse_button_run what desc w d :
  api_key w ≠ "" →
  analyse_button what desc (w, d)
  = let r := analysis_request what desc in
    match chat_completions_create (sent w) r with
    | Content c =>
        match loads c with
        | Ok result =>
            (Ok tt, (add_sent r w,
                     {| whys := whys d; root_cause := root_cause d;
                        ai_analysis := result |}))
        | Raise e =>
            if is_Exception e then
              (Ok tt, (add_shown (StError ("AI 调用出错啦: " +:+ exn_str e))
                         (add_sent r w), d))
            else (Raise e, (add_sent r w, d))
        end
    | Failure msg =>
        (Ok tt, (add_shown (StError ("AI 调用出错啦: "
                                      +:+ exn_str (ServiceError msg)))
                   (add_sent r w), d))
    end.
Proof.
  intros Hkey. unfold analyse_button, in_world, in_d4, set_ai_analysis.
  unfold_eff. cbn [fst snd]. rewrite (eqb_empty_false _ Hkey).
  cbn [fst snd].
  destruct (chat_completions_create _ _) as [c|msg]; cbn [fst snd is_Exception].
  - destruct (loads c) as [result|e]; cbn [fst snd]; [done|].
    by destruct (is_Exception e).
  - done.
Qed.

Lemma analyse_button_no_key what desc w d :
  api_key w = "" →
  analyse_button what desc (w, d)
  = (Ok tt, (add_shown (StError "请在左侧边栏填入你的 DeepSeek API Key") w, d)).
Proof.
  intros Hkey. unfold analyse_button, in_world. unfold_eff.
  cbn [fst snd]. by rewrite Hkey.
Qed.

Lemma loads_Exception c e :
  loads_raises_Exceptions → loads c = Raise e → is_Exception e = true.
Proof.
  intros Hl. destruct c as [s|]; simpl; [apply Hl|]. by intros [= <-].
Qed.

(** X7: a run of the D4 tab never changes the number of slots of the
    5 Whys list, whatever button is pressed, whatever the service
    answers, whatever suggestion is stored and however the run ends;
    the five inputs of the form below always find their slot. *)
Theorem d4_tab_keeps_slots what desc b s :
  length (whys (d4_tab what desc b s).2.2) = length (whys s.2).
Proof.
  destruct s as [w d]. unfold d4_tab.
  destruct (String.eqb what ""); [done|].
  assert (Hrest : ∀ (m : StateExn d4_state unit) s0,
            keeps_slots m → length (whys (in_d4 m s0).2.2) = length (whys s0.2)).
  { intros m [w0 d0] Hm. unfold in_d4. cbn [fst snd].
    specialize (Hm d0). by destruct (m d0). }
  assert (Hbtn : ∀ s0, length (whys (analyse_button what desc s0).2.2)
                       = length (whys s0.2)).
  { intros [w0 d0]. destruct (decide (api_key w0 = "")) as [Hk|Hk].
    - by rewrite analyse_button_no_key.
    - rewrite analyse_button_run by done. cbn zeta.
      destruct (chat_completions_create _ _) as [c|msg]; [|done].
      destruct (loads c) as [result|e]; [done|]. by destruct (is_Exception e). }
  unfold mbind, StateExn_bind.
  destruct b.
  - unfold mret, StateExn_ret. by apply Hrest, keeps_slots_suggestion_shown.
  - specialize (Hbtn (w, d)).
    destruct (analyse_button what desc (w, d)) as [[[]|e] s1]; [|done].
    rewrite Hrest by apply keeps_slots_suggestion_shown. done.
  - unfold mret, StateExn_ret. by apply Hrest, keeps_slots_adopt_button.
Qed.

(** X8: when [json.loads] raises only [Exception]s, the analysis button
    always ends normally; it leaves the whys, the root cause, the key
    and the audit result alone and sends at most one request.  Either it
    shows one error message and the stored suggestion is as before, or
    it shows nothing, the service has answered, and the stored
    suggestion is the parsed answer. *)
Theorem analyse_button_contract what desc w d :
  loads_raises_Exceptions →
  let r := analysis_request what desc in
  let s' := (analyse_button what desc (w, d)).2 in
  (analyse_button what desc (w, d)).1 = Ok tt
  ∧ whys s'.2 = whys d ∧ root_cause s'.2 = root_cause d
  ∧ api_key s'.1 = api_key w ∧ audit s'.1 = audit w
  ∧ (sent s'.1 = sent w ∨ sent s'.1 = sent w ++ [r])
  ∧ ((ai_analysis s'.2 = ai_analysis d
      ∧ ∃ msg, shown s'.1 = shown w ++ [StError msg])
     ∨ (shown s'.1 = shown w ∧ sent s'.1 = sent w ++ [r]
        ∧ ∃ c, chat_completions_create (sent w) r = Content c
               ∧ loads c = Ok (ai_analysis s'.2))).
Proof.
  intros Hl. cbn zeta.
  destruct (decide (api_key w = "")) as [Hk|Hk].
  { rewrite analyse_button_no_key by done. cbn.
    repeat (split; [by auto|]). left. split; [done|]. by eexists. }
  rewrite analyse_button_run by done. cbn zeta.
  destruct (chat_completions_create _ _) as [c|msg] eqn:Hc.
  - destruct (loads c) as [result|e] eqn:Hload.
    + cbn. repeat (split; [by auto|]). right.
      split; [done|]. split; [done|]. by exists c.
    + rewrite (loads_Exception _ _ Hl Hload). cbn.
      repeat (split; [by auto|]). left. split; [done|]. by eexists.
  - cbn. repeat (split; [by auto|]). left. split; [done|]. by eexists.
Qed.




End d4_tab_properties.

Lemma sample_loads_raises_Exceptions :
  @Spec.loads_raises_Exceptions Sample.text.
Proof.
  intros s e. change (json_loads s) with (Sample.Json.loads s).
  unfold Sample.Json.loads. cbn zeta.
  destruct (Sample.Json.value _ _) as [[v r]|]; [|by intros [= <-]].
  destruct (Sample.Json.skip_ws r); [done|by intros [= <-]].
Qed.

Lemma analyse_button_contract_witness :
  let service := Sample.scripted [] in
  let w := Sample.fresh "sk-test" in
  @Spec.loads_raises_Exceptions Sample.text
  ∧ (@Analyse.analyse_button service Sample.text Sample2.prompt
       "crack" "found at final inspection" (w, D4.d4_init)).1 = Ok tt
  ∧ D4.whys (@Analyse.analyse_button service Sample.text Sample2.prompt
               "crack" "found at final inspection" (w, D4.d4_init)).2.2
    = D4.whys D4.d4_init.
Proof.
  intros service w.
  split; [exact sample_loads_raises_Exceptions|].
  pose proof (@analyse_button_contract service Sample.text Sample2.prompt
                "crack" "found at final inspection" w D4.d4_init
                sample_loads_raises_Exceptions) as H.
  cbv zeta in H. exact (conj (proj1 H) (proj1 (proj2 H))).
Defined.



(** ** Translation, audit and exports *)

Section translate_contract.
Context `{!Service, !Text}.
Implicit Types (text target key : string) (w : world).

(** X11: [translate_report] always returns its pair, never an exception.
    An error, when there is one, is a non-empty text and comes with no
    content, so the callers' test [if error:] sees it.  The call leaves
    the session alone and sends at most one request, and only with a
    key and a target other than the native language. *)
Theorem translate_report_contract text target key w :
  ∃ content error w',
    translate_report text target key w = (Ok (content, error), w')
    ∧ (error = None
       ∨ (content = None ∧ ∃ msg, error = Some msg ∧ msg ≠ ""))
    ∧ api_key w' = api_key w ∧ audit w' = audit w ∧ shown w' = shown w
    ∧ (sent w' = sent w
       ∨ (key ≠ "" ∧ target ≠ NATIVE
          ∧ sent w' = sent w ++ [translation_request target text])).
Proof.
  destruct (decide (key = "")) as [->|Hkey].
  { rewrite translate_report_no_key. eexists _, _, _. split; [done|].
    split; [right; split; [done|]; eexists; split; [done|discriminate]|].
    split; [done|]. split; [done|]. split; [done|]. by left. }
  destruct (decide (target = NATIVE)) as [->|Htarget].
  { rewrite translate_report_native by done. eexists _, _, _.
    split; [done|]. split; [by left|].
    split; [done|]. split; [done|]. split; [done|]. by left. }
  rewrite translate_report_call by done.
  destruct (chat_completions_create _ _) as [c|msg]; eexists _, _, _;
    (split; [done|]).
  - split; [by left|].
    split; [done|]. split; [done|]. split; [done|]. by right.
  - split; [right; split; [done|]; eexists; split; [done|]; simpl; discriminate|].
    split; [done|]. split; [done|]. split; [done|]. by right.
Qed.
End translate_contract.

Section audit_more.
Context `{!Service, !Text}.
Implicit Types (text target key : string) (w : world).

Lemma translate_button_answered target w evaluation markdown c :
  truthy (extracted_data (audit w)) = true →
  evaluation_markdown (audit w) = Some evaluation →
  evaluation ≠ "" → api_key w ≠ "" → target ≠ NATIVE →
  data_markdown (extracted_data (audit w)) = Ok markdown →
  chat_completions_create (sent w)
    (translation_request target (markdown +:+ SEP +:+ evaluation))
  = Content c →
  translate_button target w
  = (store_translation c;;
     show (StSuccess ("翻译完成，目标语言：" +:+ target)))
      (add_sent (translation_request target (markdown +:+ SEP +:+ evaluation)) w).
Proof.
  intros Hex Hev Hne Hkey Htarget Hmd. unfold translate_button.
  generalize SEP. intros sep Hc.
  unfold gets, lift, mbind at 1 2 3 4 5, StateExn_bind.
  rewrite Hev, Hex, Hmd. cbn [truthy_str andb].
  rewrite (eqb_empty_false _ Hne). cbn [negb].
  rewrite (eqb_empty_false _ Hkey).
  rewrite (translate_report_call _ _ _ _ Hkey Htarget), Hc.
  reflexivity.
Qed.

Lemma rendered_page_translated target a :
  target ≠ NATIVE → is_Some (translated_eval a) →
  Page.rendered_page target a
  = if truthy_str (translated_data a)
    then Page.SplitPage (default "" (translated_data a))
                        (default "" (translated_eval a))
    else Page.MergedPage (default "" (translated_eval a)).
Proof.
  intros Htarget Hsome. unfold Page.rendered_page, NATIVE in *.
  rewrite (proj2 (String.eqb_neq target _) Htarget).
  by rewrite bool_decide_eq_true_2.
Qed.

Lemma store_translation_Some text w :
  (store_translation (Some text) w).1 = Ok tt
  ∧ is_Some (translated_eval (audit (store_translation (Some text) w).2)).
Proof.
  destruct (Str.find SEP text) as [p|] eqn:Hf.
  - by rewrite (store_translation_found _ _ _ Hf).
  - by rewrite (store_translation_not_found _ _ Hf).
Qed.

(** X12: a stored translation carries no language.  After a translation
    into one language succeeded, the page shows the stored translation
    under every other target language as well, and the original only
    when the native language is selected. *)
Theorem translation_outlives_language_choice target other w evaluation markdown text :
  truthy (extracted_data (audit w)) = true →
  evaluation_markdown (audit w) = Some evaluation →
  evaluation ≠ "" → api_key w ≠ "" → target ≠ NATIVE →
  data_markdown (extracted_data (audit w)) = Ok markdown →
  chat_completions_create (sent w)
    (translation_request target (markdown +:+ SEP +:+ evaluation))
  = Content (Some text) →
  other ≠ NATIVE →
  let a' := audit (translate_button target w).2 in
  (translate_button target w).1 = Ok tt
  ∧ Page.rendered_page target a' ≠ Page.OriginalPage
  ∧ Page.rendered_page other a' = Page.rendered_page target a'
  ∧ Page.rendered_page NATIVE a' = Page.OriginalPage.
Proof.
  intros Hex Hev Hne Hkey Htarget Hmd Hc Hother.
  rewrite (translate_button_answered _ _ _ _ _ Hex Hev Hne Hkey Htarget Hmd Hc).
  set (w1 := add_sent _ w).
  destruct (store_translation_Some text w1) as [Hok Hsome].
  unfold mbind, StateExn_bind.
  destruct (store_translation (Some text) w1) as [[[]|e] w2]; [|done].
  cbn [fst snd] in *. cbn zeta. unfold show, modify. cbn [fst snd add_shown audit].
  split; [done|].
  rewrite !rendered_page_translated by done.
  split; [by destruct (truthy_str _)|]. split; [done|].
  reflexivity.
Qed.

(** X13: an answer without content ([None]) is an error message in the
    audit run, where [json.loads] raises inside the [try], but an
    uncaught [AttributeError] in the translate handler, where [split]
    is called on it outside any [try]; the translated fields are not
    assigned then. *)
Theorem answer_without_content text target w evaluation markdown :
  text ≠ "" → api_key w ≠ "" →
  (chat_completions_create (sent w) (extraction_request text) = Content None →
   audit_run (Some text) w
   = (Ok tt, add_shown (audit_failed_message TypeError)
               (add_sent (extraction_request text) w)))
  ∧ (truthy (extracted_data (audit w)) = true →
     evaluation_markdown (audit w) = Some evaluation →
     evaluation ≠ "" → target ≠ NATIVE →
     data_markdown (extracted_data (audit w)) = Ok markdown →
     chat_completions_create (sent w)
       (translation_request target (markdown +:+ SEP +:+ evaluation))
     = Content None →
     translate_button target w
     = (Raise AttributeError,
        add_sent (translation_request target (markdown +:+ SEP +:+ evaluation))
          w)).
Proof.
  intros Htext Hkey. split.
  - intros Hc. unfold audit_run. rewrite (eqb_empty_false _ Htext).
    unfold_eff. by rewrite (eqb_empty_false _ Hkey), Hc.
  - intros Hex Hev Hne Htarget Hmd Hc.
    by rewrite (translate_button_answered _ _ _ _ _ Hex Hev Hne Hkey Htarget Hmd Hc).
Qed.

(** X14: when [json.loads] raises only [Exception]s, an audit run ends
    normally or, without a key, in [st.stop()] with no request sent.  It
    never changes the key, sends at most two requests, and shows at
    most one message, an error; when it shows one, the audit result is
    as before. *)
Theorem audit_run_outcome report_text w :
  Spec.loads_raises_Exceptions →
  let r := audit_run report_text w in
  (r.1 = Ok tt
   ∨ (r.1 = Raise StopException ∧ api_key w = "" ∧ sent r.2 = sent w))
  ∧ api_key r.2 = api_key w
  ∧ (∃ reqs, sent r.2 = sent w ++ reqs ∧ length reqs ≤ 2)
  ∧ (shown r.2 = shown w
     ∨ ∃ msg, shown r.2 = shown w ++ [StError msg] ∧ audit r.2 = audit w).
Proof.
  intros Hl. cbn zeta. unfold audit_run.
  destruct report_text as [text|].
  2:{ split; [by left|]. split; [done|].
      split; [exists []; split; [by rewrite app_nil_r|simpl; lia]|]. by left. }
  destruct (String.eqb text "").
  { split; [by left|]. split; [done|].
    split; [exists []; split; [by rewrite app_nil_r|simpl; lia]|]. by left. }
  unfold_eff.
  destruct (String.eqb_spec (api_key w) "") as [Hkey|Hkey].
  { cbn. split; [by right|]. split; [done|].
    split; [exists []; split; [by rewrite app_nil_r|simpl; lia]|]. right. by eexists. }
  destruct (chat_completions_create (sent w) _) as [content|msg] eqn:H1.
  - destruct (loads content) as [extracted|e] eqn:H2.
    + cbn.
      destruct (chat_completions_create (sent w ++ _) _) as [evaluation|msg] eqn:H3.
      * cbn. split; [by left|]. split; [done|].
        split; [eexists [_; _]; split; [by rewrite <- app_assoc|simpl; lia]|]. by left.
      * cbn. split; [by left|]. split; [done|].
        split; [eexists [_; _]; split; [by rewrite <- app_assoc|simpl; lia]|]. right. by eexists.
    + assert (He : is_Exception e = true).
      { destruct content as [s|]; simpl in H2; [by eapply Hl|].
        by injection H2 as <-. }
      rewrite He. cbn. split; [by left|]. split; [done|].
      split; [eexists [_]; split; [done|simpl; lia]|]. right. by eexists.
  - cbn. split; [by left|]. split; [done|].
    split; [eexists [_]; split; [done|simpl; lia]|]. right. by eexists.
Qed.

(** X15: a successful audit discards the translation of the previous
    one: both translated fields are absent afterwards and the page
    shows the original report whatever target language is selected. *)
Theorem new_audit_shows_original text w extracted evaluation target :
  text ≠ "" → api_key w ≠ "" →
  audit_succeeds text w extracted evaluation →
  let a' := audit (audit_run (Some text) w).2 in
  translated_data a' = None ∧ translated_eval a' = None
  ∧ Page.rendered_page target a' = Page.OriginalPage.
Proof.
  intros Htext Hkey Hok.
  rewrite (audit_run_success _ _ _ _ Htext Hkey Hok). cbn.
  split; [done|]. split; [done|].
  unfold Page.rendered_page. cbn. by rewrite andb_false_r.
Qed.
End audit_more.

Section word_more.
Import Word.
Context `{!Docx, !Text}.

Lemma call_raises_only_docx c : raises_only Spec.from_docx (call c).
Proof.
  unfold call. destruct (docx_raises c) as [e|] eqn:Hc; simpl; [|done].
  by exists c.
Qed.

Lemma translated_line_raises_only line :
  raises_only Spec.from_docx (translated_line line).
Proof.
  unfold translated_line.
  repeat case_match; first [apply call_raises_only_docx | exact I].
Qed.

Lemma translated_document_raises_only s evaluation now :
  raises_only Spec.from_docx
    (create_word_document (PStr s) evaluation true now).
Proof.
  unfold create_word_document, translated_body.
  cbn [mbind res_bind].
  repeat first
    [ apply then_raises_only
    | apply call_raises_only_docx
    | apply each_raises_only; intros
    | apply translated_line_raises_only
    | case_match
    | exact I ].
Qed.

(** X16: when the page shows a translation, split or merged, the Word
    export is built from text only: if it fails, the exception comes
    from [python-docx], never from a lookup in the report. *)
Theorem translated_export_fails_only_in_docx target a now r :
  Page.rendered_page target a ≠ Page.OriginalPage →
  Page.export_document target a now = Some r →
  raises_only Spec.from_docx r.
Proof.
  intros Hpage. unfold Page.export_document.
  destruct (_ && _); [|done]. intros [= <-].
  destruct (Page.rendered_page target a); [..|done];
    apply translated_document_raises_only.
Qed.

Lemma then_is_ok a b : is_ok a = true → is_ok b = true → is_ok (then_ a b) = true.
Proof. by destruct a, b. Qed.

Lemma each_is_ok {A} (f : A → res (list docx_call)) l :
  Forall (λ x, is_ok (f x) = true) l → is_ok (each f l) = true.
Proof.
  induction 1 as [|x l Hx _ IH]; simpl; [done|]. by apply then_is_ok.
Qed.

Section lenient.
Hypothesis docx_accepts : ∀ c, docx_raises c = None.

Lemma call_is_ok c : is_ok (call c) = true.
Proof. unfold call. by rewrite docx_accepts. Qed.

Lemma action_items_is_ok v : all_mappings v → is_ok (action_items v) = true.
Proof.
  intros (items & Hiter & Hall). unfold action_items. rewrite Hiter. simpl.
  apply each_is_ok. eapply Forall_impl; [exact Hall|].
  intros [] Hx; try discriminate Hx. simpl. apply call_is_ok.
Qed.

Lemma evaluation_line_is_ok line : is_ok (evaluation_line line) = true.
Proof.
  unfold evaluation_line. repeat case_match; first [apply call_is_ok | done].
Qed.

Lemma translated_line_is_ok line : is_ok (translated_line line) = true.
Proof.
  unfold translated_line. repeat case_match; first [apply call_is_ok | done].
Qed.

(** X17: when [python-docx] accepts every call, the Word export of an
    untranslated report succeeds as soon as both action fields are
    present and hold mappings only, whatever the other fields are; the
    export of a translated text always succeeds. *)
Theorem word_export_succeeds d s evaluation now :
  (actions_are_mappings d →
   is_ok (create_word_document (PDict d) evaluation false now) = true)
  ∧ is_ok (create_word_document (PStr s) evaluation true now) = true.
Proof.
  split.
  - intros (d3 & d5 & Hd3 & Hd5 & Hall3 & Hall5).
    unfold create_word_document, untranslated_body, core_table.
    cbn [get mbind res_bind]. rewrite Hd3, Hd5. cbn [default].
    repeat first
      [ apply then_is_ok
      | apply call_is_ok
      | by apply action_items_is_ok
      | apply each_is_ok, Forall_forall; intros
      | apply evaluation_line_is_ok
      | reflexivity ].
  - unfold create_word_document, translated_body. cbn [mbind res_bind].
    repeat first
      [ apply then_is_ok
      | apply call_is_ok
      | apply each_is_ok, Forall_forall; intros
      | apply translated_line_is_ok
      | case_match
      | done ].
Qed.
End lenient.
End word_more.

Section ingest_more.
Import Ingest.
Context `{!Service, !Text, !Files}.

(** X18: with an uploaded [pdf] or [txt] file the pasted text plays no
    part in the audit.  A PDF without the PDF library, or a text file
    that does not decode, gives one message and no audit: no request is
    sent even if text was pasted.  A decoded text file is audited after
    the success message.  A file of another type is ignored. *)
Theorem uploaded_file_decides_audit f pasted w :
  (file_extension (name f) = "pdf" ∨ file_extension (name f) = "txt" →
   ∀ pasted', audit_page (Some f) pasted w = audit_page (Some f) pasted' w)
  ∧ (file_extension (name f) = "pdf" → PDF_SUPPORT = false →
     audit_page (Some f) pasted w
     = (Ok tt,
        add_shown (StWarning "请先安装 `pdfminer.six` 以支持 PDF 解析。") w))
  ∧ (∀ e, file_extension (name f) = "txt" →
          decode_utf8 (data f) = Raise e → is_Exception e = true →
          audit_page (Some f) pasted w
          = (Ok tt,
             add_shown (StError ("TXT 文件读取失败: " +:+ exn_str e)) w))
  ∧ (∀ text, file_extension (name f) = "txt" →
             decode_utf8 (data f) = Ok text →
             audit_page (Some f) pasted w
             = audit_run (Some text)
                 (add_shown (StSuccess "TXT 文件读取成功！") w))
  ∧ (file_extension (name f) ≠ "pdf" → file_extension (name f) ≠ "txt" →
     audit_page (Some f) pasted w = audit_page None pasted w).
Proof.
  unfold audit_page, report_text.
  split; [|split; [|split; [|split]]].
  - intros [Hext|Hext] pasted'; rewrite Hext; cbn [String.eqb Ascii.eqb Bool.eqb];
      reflexivity.
  - intros Hext Hpdf. rewrite Hext, Hpdf. reflexivity.
  - intros e Hext Hdec He. rewrite Hext. cbn [String.eqb Ascii.eqb Bool.eqb].
    unfold_eff. rewrite Hdec, He. reflexivity.
  - intros text Hext Hdec. rewrite Hext. cbn [String.eqb Ascii.eqb Bool.eqb].
    unfold try_except, lift, mbind, StateExn_bind. rewrite Hdec. reflexivity.
  - intros Hpdf Htxt.
    rewrite (proj2 (String.eqb_neq _ _) Hpdf), (proj2 (String.eqb_neq _ _) Htxt).
    reflexivity.
Qed.
End ingest_more.

Section html_more.
Import Html.
Context `{!Service, !Text} {R : Type} `{!Templates R}.



End html_more.

Section tag_more.
Import Html Str Join.

Lemma split_char_head c s :
  ∃ h t, split_char c s = h :: t.
Proof.
  pose proof (split_char_nonempty c s). destruct (split_char c s); [done|].
  by eexists _, _.
Qed.

(** X20: the tag in the name of the exported file is the selected
    language up to its first space: it has no space, and the language
    is the tag alone or the tag, a space and the rest. *)
Theorem file_name_tag_is_first_word lang :
  has_char " " (file_name_tag lang) = false
  ∧ (lang = file_name_tag lang
     ∨ ∃ rest, lang = file_name_tag lang +:+ " " +:+ rest).
Proof.
  unfold file_name_tag.
  destruct (split_char_rejoin " " lang) as (Hjoin & Hall & _).
  destruct (split_char_head " " lang) as (h & t & Hs).
  rewrite Hs in *. cbn [head default].
  apply Forall_cons_1 in Hall as [Hh _]. split; [done|].
  destruct t as [|h' t]; [left; by rewrite <- Hjoin|].
  right. eexists. rewrite <- Hjoin at 1. reflexivity.
Qed.
End tag_more.

Lemma translation_outlives_language_choice_witness :
  let w := Sample.translated_session in
  let service := Sample.scripted [Content (Some "# Report (en)")] in
  let target := "English (英文)" in
  let other := "日本語 (日文)" in
  (truthy (extracted_data (audit w)) = true
   ∧ evaluation_markdown (audit w) = Some "## D2"
   ∧ "## D2" ≠ "" ∧ api_key w ≠ "" ∧ target ≠ NATIVE
   ∧ @data_markdown Sample.text (extracted_data (audit w))
     = Ok Sample.sparse_markdown
   ∧ @chat_completions_create service (sent w)
       (@translation_request Sample.text target
          (Sample.sparse_markdown +:+ SEP +:+ "## D2"))
     = Content (Some "# Report (en)")
   ∧ other ≠ NATIVE)
  ∧ Page.rendered_page other
      (audit (@translate_button service Sample.text target w).2)
    = Page.rendered_page target
        (audit (@translate_button service Sample.text target w).2).
Proof.
  intros w service target other.
  assert (H1 : truthy (extracted_data (audit w)) = true) by (vm_compute; reflexivity).
  assert (H2 : evaluation_markdown (audit w) = Some "## D2") by reflexivity.
  assert (H3 : "## D2" ≠ "") by discriminate.
  assert (H4 : api_key w ≠ "") by discriminate.
  assert (H5 : target ≠ NATIVE) by discriminate.
  assert (H6 : @data_markdown Sample.text (extracted_data (audit w))
               = Ok Sample.sparse_markdown) by (vm_compute; reflexivity).
  assert (H7 : @chat_completions_create service (sent w)
                 (@translation_request Sample.text target
                    (Sample.sparse_markdown +:+ SEP +:+ "## D2"))
               = Content (Some "# Report (en)")) by reflexivity.
  assert (H8 : other ≠ NATIVE) by discriminate.
  split; [exact (conj H1 (conj H2 (conj H3 (conj H4 (conj H5 (conj H6 (conj H7 H8)))))))|].
  exact (proj1 (proj2 (proj2
           (@translation_outlives_language_choice service Sample.text
              target other w _ _ _ H1 H2 H3 H4 H5 H6 H7 H8)))).
Defined.

Lemma answer_without_content_witness :
  let w := Sample.fresh "sk-test" in
  let service := Sample.scripted [Content None] in
  ("8D report" ≠ "" ∧ api_key w ≠ ""
   ∧ @chat_completions_create service (sent w)
       (@extraction_request Sample.text "8D report") = Content None)
  ∧ @audit_run service Sample.text (Some "8D report") w
    = (Ok tt, add_shown (@audit_failed_message Sample.text TypeError)
                (add_sent (@extraction_request Sample.text "8D report") w)).
Proof.
  intros w service.
  assert (H1 : "8D report" ≠ "") by discriminate.
  assert (H2 : api_key w ≠ "") by discriminate.
  assert (H3 : @chat_completions_create service (sent w)
                 (@extraction_request Sample.text "8D report") = Content None)
    by reflexivity.
  split; [exact (conj H1 (conj H2 H3))|].
  exact (proj1 (@answer_without_content service Sample.text "8D report"
                  "English (英文)" w "" "" H1 H2) H3).
Defined.

Lemma audit_run_outcome_witness :
  let w := Sample.fresh "" in
  let service := Sample.scripted [] in
  @Spec.loads_raises_Exceptions Sample.text
  ∧ ((@audit_run service Sample.text (Some "8D report") w).1 = Ok tt
     ∨ ((@audit_run service Sample.text (Some "8D report") w).1
        = Raise StopException
        ∧ api_key w = ""
        ∧ sent (@audit_run service Sample.text (Some "8D report") w).2
          = sent w)).
Proof.
  intros w service.
  split; [exact sample_loads_raises_Exceptions|].
  exact (proj1 (@audit_run_outcome service Sample.text (Some "8D report") w
                  sample_loads_raises_Exceptions)).
Defined.

Lemma new_audit_shows_original_witness :
  let w := Sample.translated_session in
  let service := Sample.scripted Sample.audit_script in
  let a' := audit (@audit_run service Sample.text (Some "8D report") w).2 in
  ("8D report" ≠ "" ∧ api_key w ≠ ""
   ∧ @audit_succeeds service Sample.text "8D report" w
       (PDict Sample.sparse_report) (Some "## D2"))
  ∧ translated_data a' = None ∧ translated_eval a' = None
  ∧ Page.rendered_page "English (英文)" a' = Page.OriginalPage.
Proof.
  intros w service.
  assert (Htext : "8D report" ≠ "") by discriminate.
  assert (Hkey : api_key w ≠ "") by discriminate.
  assert (Hok : @audit_succeeds service Sample.text "8D report" w
                  (PDict Sample.sparse_report) (Some "## D2")).
  { exists (Some Sample.sparse_response).
    split; [reflexivity|]. split; [vm_compute; reflexivity|reflexivity]. }
  split; [exact (conj Htext (conj Hkey Hok))|].
  exact (@new_audit_shows_original service Sample.text "8D report" w _ _
           "English (英文)" Htext Hkey Hok).
Defined.

Lemma translated_export_fails_only_in_docx_witness :
  let a := audit Sample.translated_session in
  let target := "English (英文)" in
  let now := "2024-06-10 09:00:00" in
  let r := @Word.create_word_document Sample.docx Sample.text
             (PStr "# Report") "## D2 (en)" true now in
  (Page.rendered_page target a ≠ Page.OriginalPage
   ∧ @Page.export_document Sample.docx Sample.text target a now = Some r)
  ∧ Word.raises_only (@Spec.from_docx Sample.docx) r.
Proof.
  intros a target now r.
  assert (H1 : Page.rendered_page target a ≠ Page.OriginalPage)
    by (vm_compute; discriminate).
  assert (H2 : @Page.export_document Sample.docx Sample.text target a now
               = Some r) by (vm_compute; reflexivity).
  split; [exact (conj H1 H2)|].
  exact (@translated_export_fails_only_in_docx Sample.docx Sample.text
           target a now r H1 H2).
Defined.

Lemma word_export_succeeds_witness :
  let d : gmap string pyval :=
    {[ "D3_ICA" := PList [PDict {[ "action" := PStr "sort stock" ]}];
       "D5_Actions" := PList [] ]} in
  ((∀ c, @Word.docx_raises Sample2.lenient_docx c = None)
   ∧ Word.actions_are_mappings d)
  ∧ is_ok (@Word.create_word_document Sample2.lenient_docx Sample.text
             (PDict d) "## D2" false "2024-06-10 09:00:00") = true.
Proof.
  intros d.
  assert (H1 : ∀ c, @Word.docx_raises Sample2.lenient_docx c = None)
    by reflexivity.
  assert (H2 : Word.actions_are_mappings d).
  { exists (PList [PDict {[ "action" := PStr "sort stock" ]}]), (PList []).
    split; [vm_compute; reflexivity|]. split; [vm_compute; reflexivity|].
    split; eexists; (split; [reflexivity|]); repeat constructor. }
  split; [exact (conj H1 H2)|].
  exact (proj1 (@word_export_succeeds Sample2.lenient_docx Sample.text H1 d ""
                  "## D2" "2024-06-10 09:00:00") H2).
Defined.

Example file_name_tags :
  Html.file_name_tag "中文 (默认)" = "中文"
  ∧ Html.file_name_tag "English (英文)" = "English"
  ∧ Html.file_name_tag "日本語 (日文)" = "日本語".
Proof. repeat split; reflexivity. Qed.

Example upload_without_pdf_support :
  @Ingest.audit_page (Sample.scripted Sample.audit_script) Sample.text
    Sample2.files_without_pdf
    (Some {| Ingest.name := "Report.PDF"; Ingest.data := "%PDF-1.7" |})
    "pasted text" (Sample.fresh "sk-test")
  = (Ok tt, add_shown (StWarning "请先安装 `pdfminer.six` 以支持 PDF 解析。")
              (Sample.fresh "sk-test")).
Proof. vm_compute. reflexivity. Qed.
